(** * Permit requests and their authorization (app.py)

    A shallow embedding of the request lifecycle, the role/permission
    table, the user registry and the row shaping of the PDF report of
    [src/app.py], followed by the properties proved about them.

    Conventions of the embedding:
    - a table of the database is the list of its rows in rowid order;
      [Model.query.get] is the first row carrying the key, an UPDATE or
      DELETE acts on the rows carrying the key;
    - the ambient [current_user] of flask-login is an explicit argument;
    - [request.form] is a finite map from field names to strings; a
      missing key read with [form[k]] is the HTTP 400 of werkzeug, a
      missing key read with [form.get(k)] is [None];
    - the clock ([datetime.now()]) is an explicit argument [hoy_str];
    - werkzeug's password hashing and the standard library's
      [strptime]/[strftime] are collaborators taken as parameters. *)

From Stdlib Require Import ZArith Ascii.
From stdpp Require Import gmap strings list pretty.

Local Open Scope string_scope.
Local Open Scope Z_scope.
Local Open Scope list_scope.

(** ** Models *)

(** [class Usuario(UserMixin, db.Model)]: [password_hash] is the only
    nullable column. *)
Module Usuario.
Record t : Type := mk {
  id : Z;
  username : string;
  password_hash : option string;
  rol : string
}.
End Usuario.

(** [class SolicitudDB(db.Model)].  Columns are typed by the values the
    application writes to them: every text column receives a form string,
    [estado] the column default or a form string, and [autorizador] stays
    NULL until a transition writes a user name. *)
Module SolicitudDB.
Record t : Type := mk {
  id : Z;
  solicitante : string;
  fecha_inicio_str : string;
  fecha_fin_str : string;
  direccion : string;
  comisaria_cercana : string;
  contacto : string;
  servicio : string;
  estado : string;
  autorizador : option string
}.
End SolicitudDB.

#[global] Instance Usuario_eq_dec : EqDecision Usuario.t.
Proof. solve_decision. Defined.

#[global] Instance SolicitudDB_eq_dec : EqDecision SolicitudDB.t.
Proof. solve_decision. Defined.

(** flask-login's [current_user]: the anonymous mixin (whose
    [is_authenticated] is False and which has no [rol]) or a loaded
    [Usuario] (whose [is_authenticated] is True). *)
Inductive CurrentUser : Type :=
  | AnonymousUser
  | LoggedIn (u : Usuario.t).

Definition is_authenticated (cu : CurrentUser) : bool :=
  match cu with
  | AnonymousUser => false
  | LoggedIn _ => true
  end.

Inductive Method : Type := GET | POST.

(** What a view function hands back, as far as the properties below need
    it: the kind of response and the flashed message, if any. *)
Inductive Respuesta : Type :=
  | Render (plantilla : string) (flash : option (string * string))
  | Redirect (endpoint : string) (arg : option Z) (flash : option (string * string))
  | Denegado403
  | BadRequest400
  | Error500.

(** ** Permissions *)

Definition ROLES : gmap string (list string) :=
  list_to_map [
    ("Administrador", ["ver_panel"; "generar_pdf"; "gestionar_solicitud"; "gestionar_usuarios"]);
    ("Guardia", ["ver_panel"; "generar_pdf"]);
    ("Ventas", ["ver_informe"]);
    ("Editor", ["editar_producto"])
  ].

(** [ROLES.get(rol, [])] *)
Definition ROLES_get (rol : string) : list string :=
  default [] (ROLES !! rol).

Definition tiene_permiso (current_user : CurrentUser) (permiso_requerido : string) : bool :=
  match current_user with
  | AnonymousUser => false
  | LoggedIn u => bool_decide (permiso_requerido ∈ ROLES_get (Usuario.rol u))
  end.

(** ** The request table *)

(** [SolicitudDB.query.get(solicitud_id)] *)
Definition query_get (solicitud_id : Z) (tabla : list SolicitudDB.t) : option SolicitudDB.t :=
  List.find (λ r, Z.eqb (SolicitudDB.id r) solicitud_id) tabla.

(** The key given to an inserted row: one more than the largest key of
    the table (the rowid rule of the local SQLite store), 1 on an empty
    table. *)
Definition siguiente_id (tabla : list SolicitudDB.t) : Z :=
  1 + foldr (λ r m, Z.max (SolicitudDB.id r) m) 0 tabla.

(** The two attribute writes of [gestionar_solicitud_db] on one row. *)
Definition asignar (nueva_estado usuario_autorizador : string) (r : SolicitudDB.t) : SolicitudDB.t :=
  SolicitudDB.mk (SolicitudDB.id r) (SolicitudDB.solicitante r)
    (SolicitudDB.fecha_inicio_str r) (SolicitudDB.fecha_fin_str r)
    (SolicitudDB.direccion r) (SolicitudDB.comisaria_cercana r)
    (SolicitudDB.contacto r) (SolicitudDB.servicio r)
    nueva_estado (Some usuario_autorizador).

(** The commit of those writes: UPDATE ... WHERE id = solicitud_id. *)
Definition commit_update (solicitud_id : Z) (nueva_estado usuario_autorizador : string)
    (tabla : list SolicitudDB.t) : list SolicitudDB.t :=
  (λ r, if Z.eqb (SolicitudDB.id r) solicitud_id
        then asignar nueva_estado usuario_autorizador r else r) <$> tabla.

(** [db.session.delete(sol)] and its commit: DELETE ... WHERE id = sol.id. *)
Definition commit_delete (solicitud_id : Z) (tabla : list SolicitudDB.t) : list SolicitudDB.t :=
  List.filter (λ r, negb (Z.eqb (SolicitudDB.id r) solicitud_id)) tabla.

Definition gestionar_solicitud_db (current_user : CurrentUser)
    (usuario_autorizador : string) (solicitud_id : Z) (nueva_estado : string)
    (tabla : list SolicitudDB.t) : bool * list SolicitudDB.t :=
  if negb (tiene_permiso current_user "gestionar_solicitud") then (false, tabla)
  else match query_get solicitud_id tabla with
       | Some _ => (true, commit_update solicitud_id nueva_estado usuario_autorizador tabla)
       | None => (false, tabla)
       end.

(** ** Views that write the request table *)

(** [formulario_solicitud]: no login is required; the POST branch reads
    seven fields with [d[...]] and inserts a row with the column defaults
    ([estado] "PENDIENTE", [autorizador] NULL). *)
Definition formulario_solicitud (current_user : CurrentUser) (method : Method)
    (form : gmap string string) (tabla : list SolicitudDB.t)
    : Respuesta * list SolicitudDB.t :=
  match method with
  | POST =>
      let nueva :=
        solicitante ← form !! "solicitante";
        inicio ← form !! "inicio";
        fin ← form !! "fin";
        direccion ← form !! "direccion";
        comisaria ← form !! "comisaria";
        contacto ← form !! "contacto";
        servicio ← form !! "servicio";
        Some (SolicitudDB.mk (siguiente_id tabla) solicitante inicio fin
                direccion comisaria contacto servicio "PENDIENTE" None) in
      match nueva with
      | Some nueva => (Redirect "confirmacion" (Some (SolicitudDB.id nueva)) None, tabla ++ [nueva])
      | None => (BadRequest400, tabla)
      end
  | GET => (Render "solicitud.html" None, tabla)
  end.

(** [gestionar] (POST /gestionar_autorizacion, [@login_required]): the
    engine is called with the name of the logged-in user.  [solicitud_id]
    is the key the store resolves the form field to and [accion] the form
    field itself; the response is the same redirect whatever happens. *)
Definition gestionar (current_user : CurrentUser) (solicitud_id : Z) (accion : string)
    (tabla : list SolicitudDB.t) : Respuesta * list SolicitudDB.t :=
  match current_user with
  | AnonymousUser => (Redirect "login" None (Some ("message", "Por favor, inicie sesión para acceder a esta página.")), tabla)
  | LoggedIn u =>
      (Redirect "panel_admin" None None,
       (gestionar_solicitud_db current_user (Usuario.username u) solicitud_id accion tabla).2)
  end.

(** [eliminar_solicitud] (POST /eliminar_solicitud/<int:id>, [@login_required]). *)
Definition eliminar_solicitud (current_user : CurrentUser) (id : Z)
    (tabla : list SolicitudDB.t) : Respuesta * list SolicitudDB.t :=
  match current_user with
  | AnonymousUser => (Redirect "login" None (Some ("message", "Por favor, inicie sesión para acceder a esta página.")), tabla)
  | LoggedIn _ =>
      if tiene_permiso current_user "gestionar_solicitud" then
        match query_get id tabla with
        | Some sol => (Redirect "lista_general_solicitudes" None (Some ("success", "Eliminada.")),
                       commit_delete (SolicitudDB.id sol) tabla)
        | None => (Redirect "lista_general_solicitudes" None None, tabla)
        end
      else (Redirect "lista_general_solicitudes" None None, tabla)
  end.

(** ** Operations on the request table and reachable tables *)

(** The three requests that write the request table. *)
Inductive Operacion : Type :=
  | Enviar (current_user : CurrentUser) (form : gmap string string)
  | Transicion (current_user : CurrentUser) (solicitud_id : Z) (accion : string)
  | Eliminar (current_user : CurrentUser) (id : Z).

Definition ejecutar (o : Operacion) (tabla : list SolicitudDB.t) : list SolicitudDB.t :=
  match o with
  | Enviar cu form => (formulario_solicitud cu POST form tabla).2
  | Transicion cu solicitud_id accion => (gestionar cu solicitud_id accion tabla).2
  | Eliminar cu id => (eliminar_solicitud cu id tabla).2
  end.

(** Tables reachable from the empty table of [db.create_all()] by
    operations satisfying [permitida]. *)
Inductive alcanzable (permitida : Operacion → Prop) : list SolicitudDB.t → Prop :=
  | alcanzable_inicial : alcanzable permitida []
  | alcanzable_paso tabla o :
      alcanzable permitida tabla → permitida o →
      alcanzable permitida (ejecutar o tabla).

Definition cualquiera (o : Operacion) : Prop := True.

(** Every operation except a transition, by an actor holding
    "gestionar_solicitud", whose target is the string "PENDIENTE". *)
Definition sin_vuelta_a_pendiente (o : Operacion) : Prop :=
  match o with
  | Transicion cu _ accion =>
      accion ≠ "PENDIENTE" ∨ tiene_permiso cu "gestionar_solicitud" = false
  | _ => True
  end.

(** The authorizer is set exactly on the rows that are not pending. *)
Definition autorizador_coherente (r : SolicitudDB.t) : Prop :=
  is_Some (SolicitudDB.autorizador r) ↔ SolicitudDB.estado r ≠ "PENDIENTE".

(** ** Listings *)

(** The filter shared by [lista_general_solicitudes] (modo "hoy") and
    [descargar_pdf_hoy]: [fecha_inicio_str <= hoy_str] and
    [fecha_fin_str >= hoy_str], compared as strings. *)
Definition solicitudes_vigentes (hoy_str : string) (tabla : list SolicitudDB.t)
    : list SolicitudDB.t :=
  List.filter (λ r, String.leb (SolicitudDB.fecha_inicio_str r) hoy_str
                    && String.leb hoy_str (SolicitudDB.fecha_fin_str r)) tabla.

(** [lista_general_solicitudes]: the title and the rows given to the
    template; [modo] is [request.args.get('modo', 'hoy')]. *)
Definition lista_general_solicitudes (modo : option string) (hoy_str : string)
    (tabla : list SolicitudDB.t) : string * list SolicitudDB.t :=
  let modo := default "hoy" modo in
  if bool_decide (modo = "hoy") then ("Vigentes HOY", solicitudes_vigentes hoy_str tabla)
  else ("Historial Completo", tabla).

(** ** The report table *)

Inductive Color : Type := white | lightgreen | lightcoral | yellow.

(** [style.add('BACKGROUND', desde, hasta, color)], cells as (column, row). *)
Inductive StyleCmd : Type :=
  | BACKGROUND (desde hasta : nat * nat) (color : Color).

Definition salto_de_linea : string := String (ascii_of_nat 10) EmptyString.

Definition encabezado : list string :=
  ["ID"; "Solicitante"; "Servicio"; "Período"; "Dirección"; "Estado"; "Autorizador"; "Contacto"].

(** [sol.autorizador if sol.autorizador else 'N/A'] *)
Definition autorizador_str (sol : SolicitudDB.t) : string :=
  match SolicitudDB.autorizador sol with
  | Some a => if bool_decide (a = "") then "N/A" else a
  | None => "N/A"
  end.

(** The colour chosen in the styling loop for a state cell. *)
Definition color_estado (estado : string) : Color :=
  if bool_decide (estado = "APROBADA") then lightgreen
  else if bool_decide (estado = "RECHAZADA") then lightcoral
  else if bool_decide (estado = "PENDIENTE") then yellow
  else white.

(** The styling loop [for i in range(1, len(data))]; an index out of
    range ([data[i][5]]) is an exception, here [None]. *)
Definition estilo_estados (data : list (list string)) : option (list StyleCmd) :=
  mapM (λ i : nat,
          fila ← data !! i;
          estado ← fila !! 5%nat;
          Some (BACKGROUND (5%nat, i) (5%nat, i) (color_estado estado)))
       (seq 1%nat (length data - 1)%nat).

Section Colaboradores.

(** [datetime.strptime(s, '%Y-%m-%d').strftime('%d/%m/%Y')], [None]
    when [strptime] raises. *)
Variable cambiar_formato : string → option string.

(** [werkzeug.security]: one call of the salted hash, and the check of
    a candidate against a hash ([None] when the call raises, as it
    does on a candidate that is not a string). *)
Variable generate_password_hash : string → string.
Variable check_password_hash : string → option string → option bool.

Definition get_fecha_inicio (self : SolicitudDB.t) : string :=
  default (SolicitudDB.fecha_inicio_str self)
          (cambiar_formato (SolicitudDB.fecha_inicio_str self)).

Definition get_fecha_fin (self : SolicitudDB.t) : string :=
  default (SolicitudDB.fecha_fin_str self)
          (cambiar_formato (SolicitudDB.fecha_fin_str self)).

(** The row appended to [data] for one request. *)
Definition fila_de (sol : SolicitudDB.t) : list string :=
  let periodo := get_fecha_inicio sol +:+ " - " +:+ get_fecha_fin sol in
  let direccion_completa :=
    SolicitudDB.direccion sol +:+ salto_de_linea +:+
    "(Com.: " +:+ SolicitudDB.comisaria_cercana sol +:+ ")" in
  [pretty (SolicitudDB.id sol); SolicitudDB.solicitante sol; SolicitudDB.servicio sol;
   periodo; direccion_completa; SolicitudDB.estado sol;
   autorizador_str sol; SolicitudDB.contacto sol].

(** [generar_pdf_historial] up to the call of the renderer: the cell
    table and the per-row background commands given to ReportLab. *)
Definition generar_pdf_historial (lista_solicitudes : option (list SolicitudDB.t))
    (tabla : list SolicitudDB.t) : option (list (list string) * list StyleCmd) :=
  let solicitudes := default tabla lista_solicitudes in
  let data := encabezado :: (fila_de <$> solicitudes) in
  estilo ← estilo_estados data;
  Some (data, estilo).

(** [descargar_pdf_hoy]: what is projected when the download is granted. *)
Definition descargar_pdf_hoy (current_user : CurrentUser) (hoy_str : string)
    (tabla : list SolicitudDB.t) : option (list (list string) * list StyleCmd) :=
  if is_authenticated current_user && tiene_permiso current_user "generar_pdf"
  then generar_pdf_historial (Some (solicitudes_vigentes hoy_str tabla)) tabla
  else None.

(** *** Users *)

Definition set_password (self : Usuario.t) (password : string) : Usuario.t :=
  Usuario.mk (Usuario.id self) (Usuario.username self)
    (Some (generate_password_hash password)) (Usuario.rol self).

Definition check_password (self : Usuario.t) (password : option string) : option bool :=
  match Usuario.password_hash self with
  | None => Some false
  | Some h => if bool_decide (h = "") then Some false else check_password_hash h password
  end.

(** [Usuario.query.filter_by(username=...).first()]; the column is not
    nullable, so no row matches an absent name. *)
Definition filter_by_username (username : option string) (usuarios : list Usuario.t)
    : option Usuario.t :=
  match username with
  | Some n => List.find (λ u, bool_decide (Usuario.username u = n)) usuarios
  | None => None
  end.

Definition siguiente_id_usuario (usuarios : list Usuario.t) : Z :=
  1 + foldr (λ u m, Z.max (Usuario.id u) m) 0 usuarios.

(** The two accounts seeded at start-up on an empty table. *)
Definition usuarios_iniciales : list Usuario.t :=
  [ set_password (Usuario.mk 1 "victor_admin" None "Administrador") "admin123";
    set_password (Usuario.mk 2 "GUARDIA" None "Guardia") "guardia123" ].

(** [login]: the response and the session's user afterwards. *)
Definition login (current_user : CurrentUser) (method : Method)
    (form : gmap string string) (usuarios : list Usuario.t)
    : Respuesta * CurrentUser :=
  if is_authenticated current_user then (Redirect "panel_admin" None None, current_user)
  else match method with
       | POST =>
           match filter_by_username (form !! "username") usuarios with
           | Some user =>
               match check_password user (form !! "password") with
               | Some true => (Redirect "panel_admin" None None, LoggedIn user)
               | Some false =>
                   (Render "login.html" (Some ("error", "Credenciales inválidas.")), current_user)
               | None => (Error500, current_user)
               end
           | None =>
               (Render "login.html" (Some ("error", "Credenciales inválidas.")), current_user)
           end
       | GET => (Render "login.html" None, current_user)
       end.

(** [gestionar_usuarios] ([@login_required]).  On the creation path a
    missing password makes [generate_password_hash] raise and a missing
    name or role violates the NOT NULL columns at commit. *)
Definition gestionar_usuarios (current_user : CurrentUser) (method : Method)
    (form : gmap string string) (usuarios : list Usuario.t)
    : Respuesta * list Usuario.t :=
  match current_user with
  | AnonymousUser => (Redirect "login" None (Some ("message", "Por favor, inicie sesión para acceder a esta página.")), usuarios)
  | LoggedIn _ =>
      if negb (tiene_permiso current_user "gestionar_usuarios") then (Denegado403, usuarios)
      else match method with
           | POST =>
               match filter_by_username (form !! "username") usuarios with
               | None =>
                   match form !! "username", form !! "rol", form !! "password" with
                   | Some username, Some rol, Some password =>
                       let u := Usuario.mk (siguiente_id_usuario usuarios) username None rol in
                       (Render "gestionar_usuarios.html" (Some ("success", "Usuario creado.")),
                        usuarios ++ [set_password u password])
                   | _, _, _ => (Error500, usuarios)
                   end
               | Some _ =>
                   (Render "gestionar_usuarios.html" (Some ("error", "Usuario ya existe.")), usuarios)
               end
           | GET => (Render "gestionar_usuarios.html" None, usuarios)
           end
  end.

End Colaboradores.

(** ** Sample data used to run the definitions *)

(** Stand-ins for the collaborators, used only to evaluate examples: a
    hash that tags the password, its check, and a date rewriter that
    recognises a zero-padded [dddd-dd-dd] and swaps its fields. *)
Definition hash_ejemplo (password : string) : string := "hash$" +:+ password.

Definition check_ejemplo (pwhash : string) (password : option string) : option bool :=
  match password with
  | Some p => Some (bool_decide (pwhash = hash_ejemplo p))
  | None => None
  end.

Definition es_digito (c : ascii) : bool :=
  let n := nat_of_ascii c in (48 <=? n)%nat && (n <=? 57)%nat.

Definition formato_ejemplo (s : string) : option string :=
  match s with
  | String y1 (String y2 (String y3 (String y4 (String "-"%char (String m1 (String m2
      (String "-"%char (String d1 (String d2 EmptyString))))))))) =>
      if forallb es_digito [y1; y2; y3; y4; m1; m2; d1; d2]
      then Some (String d1 (String d2 (String "/"%char (String m1 (String m2 (String "/"%char
                  (String y1 (String y2 (String y3 (String y4 EmptyString))))))))))
      else None
  | _ => None
  end.

Definition admin_ejemplo : Usuario.t :=
  Usuario.mk 1 "victor_admin" (Some (hash_ejemplo "admin123")) "Administrador".

Definition guardia_ejemplo : Usuario.t :=
  Usuario.mk 2 "GUARDIA" (Some (hash_ejemplo "guardia123")) "Guardia".

Definition invitado_ejemplo : Usuario.t :=
  Usuario.mk 3 "visita" (Some (hash_ejemplo "visita123")) "Invitado".

Definition sin_clave_ejemplo : Usuario.t :=
  Usuario.mk 4 "importado" None "Administrador".

Definition form_ejemplo : gmap string string :=
  list_to_map [
    ("solicitante", "Ana Rojas"); ("inicio", "2024-03-01"); ("fin", "2024-03-05");
    ("direccion", "Av. Central 123"); ("comisaria", "Comisaria 4");
    ("contacto", "555-0101"); ("servicio", "Mudanza")
  ].

Definition solicitud_ejemplo : SolicitudDB.t :=
  SolicitudDB.mk 1 "Ana Rojas" "2024-01-10" "2024-01-20" "Av. Central 123"
    "Comisaria 4" "555-0101" "Mudanza" "PENDIENTE" None.

Definition rechazada_previa_ejemplo : SolicitudDB.t :=
  SolicitudDB.mk 4 "Luis Vera" "2024-02-01" "2024-02-03" "Calle 9"
    "Comisaria 1" "555-0202" "Entrega" "RECHAZADA" (Some "victor_admin").

Definition aprobada_ejemplo : SolicitudDB.t :=
  asignar "APROBADA" "victor_admin" solicitud_ejemplo.

(** ** Start-up configuration and seeding *)

(** [s[n:]] *)
Fixpoint quitar (n : nat) (s : string) : string :=
  match n, s with
  | O, _ => s
  | S n, String _ s' => quitar n s'
  | S _, EmptyString => EmptyString
  end.

(** [s.replace(old, new, 1)]: the leftmost occurrence of [old] is
    replaced, the rest of the string is kept. *)
Fixpoint replace_1 (old new s : string) : string :=
  if String.prefix old s then new +:+ quitar (String.length old) s
  else match s with
       | EmptyString => EmptyString
       | String c s' => String c (replace_1 old new s')
       end.

(** The value given to SQLALCHEMY_DATABASE_URI: [env] is
    [os.environ.get('DATABASE_URL')] and [ruta_local] the joined path of
    the local file. *)
Definition database_url (env : option string) (ruta_local : string) : string :=
  match env with
  | Some url =>
      if bool_decide (url = "") then "sqlite:///" +:+ ruta_local
      else if String.prefix "postgres://" url
           then replace_1 "postgres://" "postgresql://" url
           else url
  | None => "sqlite:///" +:+ ruta_local
  end.

(** [os.environ.get('SECRET_KEY') or 'CLAVE_SECRETA_SUPER_SEGURA'] *)
Definition secret_key (env : option string) : string :=
  match env with
  | Some k => if bool_decide (k = "") then "CLAVE_SECRETA_SUPER_SEGURA" else k
  | None => "CLAVE_SECRETA_SUPER_SEGURA"
  end.

Section Arranque.

Variable generate_password_hash : string → string.

(** The block run under [app.app_context()] after [db.create_all()]:
    each default account is added unless a user of that name exists. *)
Definition crear_usuarios_por_defecto (usuarios : list Usuario.t) : list Usuario.t :=
  let usuarios :=
    match filter_by_username (Some "victor_admin") usuarios with
    | None =>
        usuarios ++ [set_password generate_password_hash
                       (Usuario.mk (siguiente_id_usuario usuarios) "victor_admin" None
                          "Administrador") "admin123"]
    | Some _ => usuarios
    end in
  match filter_by_username (Some "GUARDIA") usuarios with
  | None =>
      usuarios ++ [set_password generate_password_hash
                     (Usuario.mk (siguiente_id_usuario usuarios) "GUARDIA" None "Guardia")
                     "guardia123"]
  | Some _ => usuarios
  end.

End Arranque.

(** ** Views that read the request table *)

(** What a reading view hands back: a rendered page or document with its
    data, a bare status code, or a redirect. *)
Inductive Vista (A : Type) : Type :=
  | Pagina (plantilla : string) (datos : A)
  | Documento (nombre : string) (datos : A)
  | Codigo (http : Z)
  | Redirige (endpoint : string).

Arguments Pagina {A} plantilla datos.
Arguments Documento {A} nombre datos.
Arguments Codigo {A} http.
Arguments Redirige {A} endpoint.

(** [confirmacion]: [SolicitudDB.query.get_or_404(id)]. *)
Definition confirmacion (id : Z) (tabla : list SolicitudDB.t) : Vista SolicitudDB.t :=
  match query_get id tabla with
  | Some sol => Pagina "confirmacion.html" sol
  | None => Codigo 404
  end.

(** [SolicitudDB.query.filter_by(estado="PENDIENTE").all()] *)
Definition pendientes (tabla : list SolicitudDB.t) : list SolicitudDB.t :=
  List.filter (λ r, bool_decide (SolicitudDB.estado r = "PENDIENTE")) tabla.

(** [panel_admin] ([@login_required]). *)
Definition panel_admin (current_user : CurrentUser) (tabla : list SolicitudDB.t)
    : Vista (list SolicitudDB.t) :=
  match current_user with
  | AnonymousUser => Redirige "login"
  | LoggedIn _ =>
      if negb (tiene_permiso current_user "ver_panel") then Codigo 403
      else Pagina "administrador.html" (pendientes tabla)
  end.

(** [descargar_historial_pdf] ([@login_required]): the whole table is
    projected; an exception in the projection is the HTTP 500. *)
Definition descargar_historial_pdf (cambiar_formato : string → option string)
    (current_user : CurrentUser) (tabla : list SolicitudDB.t)
    : Vista (list (list string) * list StyleCmd) :=
  match current_user with
  | AnonymousUser => Redirige "login"
  | LoggedIn _ =>
      if negb (tiene_permiso current_user "generar_pdf") then Redirige "panel_admin"
      else match generar_pdf_historial cambiar_formato None tabla with
           | Some doc => Documento "Historial_Completo.pdf" doc
           | None => Codigo 500
           end
  end.

(** More sample data. *)
Definition ventas_ejemplo : Usuario.t :=
  Usuario.mk 5 "vendedor" (Some (hash_ejemplo "ventas123")) "Ventas".

Definition rechazada_ejemplo : SolicitudDB.t :=
  SolicitudDB.mk 2 "Luis Vera" "2024-02-01" "2024-02-03" "Calle 9"
    "Comisaria 1" "555-0202" "Entrega" "RECHAZADA" (Some "victor_admin").

Definition invertida_ejemplo : SolicitudDB.t :=
  SolicitudDB.mk 3 "Eva Paz" "2024-05-10" "2024-05-01" "Calle 2"
    "Comisaria 2" "555-0303" "Visita" "PENDIENTE" None.

(** * Properties *)

(** ** Lookups in the request table *)

Lemma query_get_Some sid tabla r :
  query_get sid tabla = Some r → r ∈ tabla ∧ SolicitudDB.id r = sid.
Proof.
  unfold query_get. intros H. apply find_some in H as [Hin Heq].
  split; [by apply list_elem_of_In | lia].
Qed.

Lemma query_get_None sid tabla :
  query_get sid tabla = None ↔ ¬ ∃ r, r ∈ tabla ∧ SolicitudDB.id r = sid.
Proof.
  unfold query_get. split.
  - intros H [r [Hin Hid]]. apply list_elem_of_In in Hin.
    pose proof (find_none _ _ H r Hin) as Hn. simpl in Hn. lia.
  - intros H. destruct (find _ tabla) as [r|] eqn:E; [|done].
    exfalso. apply H. exists r. apply find_some in E as [Hin Heq].
    split; [by apply list_elem_of_In | lia].
Qed.

Lemma commit_update_lookup sid e usuario tabla (i : nat) :
  commit_update sid e usuario tabla !! i =
  (λ r, if Z.eqb (SolicitudDB.id r) sid then asignar e usuario r else r) <$> tabla !! i.
Proof. unfold commit_update. apply list_lookup_fmap. Qed.

Lemma commit_update_length sid e usuario tabla :
  length (commit_update sid e usuario tabla) = length tabla.
Proof. unfold commit_update. apply length_fmap. Qed.

Lemma query_get_commit_update sid e usuario tabla :
  query_get sid (commit_update sid e usuario tabla) =
  asignar e usuario <$> query_get sid tabla.
Proof.
  unfold query_get, commit_update.
  induction tabla as [|r tabla IH]; [done|].
  cbn [fmap list_fmap find].
  destruct (Z.eqb (SolicitudDB.id r) sid) eqn:E; cbn [asignar SolicitudDB.id]; rewrite E.
  - done.
  - exact IH.
Qed.

Lemma siguiente_id_cota tabla r :
  r ∈ tabla → SolicitudDB.id r < siguiente_id tabla.
Proof.
  unfold siguiente_id.
  induction tabla as [|x tabla IH]; intros Hin.
  - by apply elem_of_nil in Hin.
  - apply elem_of_cons in Hin as [->|Hin]; cbn [foldr]; [lia|].
    specialize (IH Hin). lia.
Qed.

Lemma find_snoc_None {A} (f : A → bool) (l : list A) (x : A) :
  find f l = None → f x = true → find f (l ++ [x]) = Some x.
Proof.
  intros Hno Hx. induction l as [|y l IH]; cbn [app find] in *.
  - by rewrite Hx.
  - destruct (f y); [done|]. by apply IH.
Qed.

Lemma query_get_snoc_nueva tabla nueva :
  SolicitudDB.id nueva = siguiente_id tabla →
  query_get (SolicitudDB.id nueva) (tabla ++ [nueva]) = Some nueva.
Proof.
  intros Hid. unfold query_get. apply find_snoc_None; [|apply Z.eqb_refl].
  apply (proj2 (query_get_None _ _)). intros [r [Hin Heq]].
  apply siguiente_id_cota in Hin. lia.
Qed.

Lemma commit_update_snoc_nueva e usuario tabla nueva :
  SolicitudDB.id nueva = siguiente_id tabla →
  commit_update (SolicitudDB.id nueva) e usuario (tabla ++ [nueva])
  = tabla ++ [asignar e usuario nueva].
Proof.
  intros Hid. unfold commit_update. rewrite fmap_app. f_equal.
  - rewrite <- (list_fmap_id tabla) at 2. apply list_fmap_ext.
    intros i r Hr. apply list_elem_of_lookup_2, siguiente_id_cota in Hr.
    destruct (Z.eqb_spec (SolicitudDB.id r) (SolicitudDB.id nueva)); [lia|done].
  - cbn [fmap list_fmap]. by rewrite Z.eqb_refl.
Qed.

(** ** The permission check *)

Lemma ROLES_get_ausente rol : ROLES !! rol = None → ROLES_get rol = [].
Proof. unfold ROLES_get. by intros ->. Qed.

(** C3: [tiene_permiso] answers true exactly for an authenticated actor
    whose role has an entry in [ROLES] that contains the capability; it is
    a total boolean function that answers false for the anonymous actor
    and for every role without an entry, whatever the capability. *)
Theorem tiene_permiso_correcto :
  (∀ cu permiso,
      tiene_permiso cu permiso = true ↔
      is_authenticated cu = true ∧
      ∃ u permisos, cu = LoggedIn u ∧ ROLES !! Usuario.rol u = Some permisos
                    ∧ permiso ∈ permisos)
  ∧ (∀ cu permiso, is_authenticated cu = false → tiene_permiso cu permiso = false)
  ∧ (∀ u permiso, ROLES !! Usuario.rol u = None →
                  tiene_permiso (LoggedIn u) permiso = false).
Proof.
  split; [|split].
  - intros [|u] permiso; cbn [tiene_permiso is_authenticated].
    + split; [done|]. by intros [? _].
    + rewrite bool_decide_eq_true. unfold ROLES_get. split.
      * intros Hin. split; [done|]. exists u.
        destruct (ROLES !! Usuario.rol u) as [permisos|] eqn:E; cbn in Hin.
        -- by exists permisos.
        -- by apply elem_of_nil in Hin.
      * intros [_ (u' & permisos & Heq & Hrol & Hin)].
        injection Heq as <-. by rewrite Hrol.
  - intros [|u] permiso; [done|]. cbn. discriminate.
  - intros u permiso Hrol. cbn [tiene_permiso].
    rewrite (ROLES_get_ausente _ Hrol). apply bool_decide_eq_false, not_elem_of_nil.
Qed.

Lemma tiene_permiso_correcto_witness :
  tiene_permiso (LoggedIn invitado_ejemplo) "gestionar_solicitud" = false.
Proof.
  apply (proj2 (proj2 tiene_permiso_correcto) invitado_ejemplo "gestionar_solicitud").
  vm_compute. reflexivity.
Defined.

(** ** The transition engine *)

Lemma gestionar_solicitud_db_casos cu usuario sid e tabla :
  (gestionar_solicitud_db cu usuario sid e tabla = (false, tabla)
   ∧ (tiene_permiso cu "gestionar_solicitud" = false ∨ query_get sid tabla = None))
  ∨ (gestionar_solicitud_db cu usuario sid e tabla = (true, commit_update sid e usuario tabla)
     ∧ tiene_permiso cu "gestionar_solicitud" = true
     ∧ ∃ r, query_get sid tabla = Some r).
Proof.
  unfold gestionar_solicitud_db.
  destruct (tiene_permiso cu "gestionar_solicitud"); cbn [negb]; [|by left; auto].
  destruct (query_get sid tabla) as [r|]; [right; eauto | left; auto].
Qed.

(** C2: a transition asked by an actor without "gestionar_solicitud", or
    for a key carried by no row, returns false and leaves the table as it
    was; and whatever the outcome, each row either keeps both its state
    and its authorizer or has both written by the call. *)
Theorem gestionar_solicitud_db_falla_sin_efecto :
  ∀ cu usuario sid e tabla,
    ((tiene_permiso cu "gestionar_solicitud" = false
      ∨ ¬ (∃ r, r ∈ tabla ∧ SolicitudDB.id r = sid)) →
     gestionar_solicitud_db cu usuario sid e tabla = (false, tabla))
    ∧ ((gestionar_solicitud_db cu usuario sid e tabla).1 = false →
       (gestionar_solicitud_db cu usuario sid e tabla).2 = tabla)
    ∧ length (gestionar_solicitud_db cu usuario sid e tabla).2 = length tabla
    ∧ ∀ (i : nat) r r',
        tabla !! i = Some r →
        (gestionar_solicitud_db cu usuario sid e tabla).2 !! i = Some r' →
        (SolicitudDB.estado r' = SolicitudDB.estado r
         ∧ SolicitudDB.autorizador r' = SolicitudDB.autorizador r)
        ∨ (SolicitudDB.estado r' = e
           ∧ SolicitudDB.autorizador r' = Some usuario).
Proof.
  intros cu usuario sid e tabla.
  destruct (gestionar_solicitud_db_casos cu usuario sid e tabla)
    as [[-> Hf]|(-> & Hp & r0 & Hr0)]; cbn [fst snd].
  - split; [done|split; [done|split; [done|]]].
    intros i r r' H1 H2. left. by simplify_eq.
  - split; [|split; [done|split]].
    + intros [Hno|Hno]; [congruence|].
      apply query_get_None in Hno. congruence.
    + apply commit_update_length.
    + intros i r r' H1 H2. rewrite commit_update_lookup, H1 in H2.
      cbn in H2. injection H2 as <-.
      destruct (Z.eqb (SolicitudDB.id r) sid); [right|left]; done.
Qed.

Lemma gestionar_solicitud_db_falla_sin_efecto_witness :
  gestionar_solicitud_db (LoggedIn guardia_ejemplo) "GUARDIA" 1 "APROBADA" [solicitud_ejemplo]
  = (false, [solicitud_ejemplo])
  ∧ gestionar_solicitud_db (LoggedIn admin_ejemplo) "victor_admin" 7 "APROBADA" [solicitud_ejemplo]
    = (false, [solicitud_ejemplo]).
Proof.
  split.
  - apply (proj1 (gestionar_solicitud_db_falla_sin_efecto
                    (LoggedIn guardia_ejemplo) "GUARDIA" 1 "APROBADA" [solicitud_ejemplo])).
    left. vm_compute. reflexivity.
  - apply (proj1 (gestionar_solicitud_db_falla_sin_efecto
                    (LoggedIn admin_ejemplo) "victor_admin" 7 "APROBADA" [solicitud_ejemplo])).
    right. intros [r [Hin Hid]]. apply list_elem_of_singleton in Hin. subst r.
    vm_compute in Hid. discriminate.
Defined.

(** C6: a successful transition keeps the number and order of the rows,
    leaves every row with another key exactly as it was, and on the row
    carrying the key keeps the key, requester, dates, address, reference
    point, contact and service. *)
Theorem gestionar_solicitud_db_marco :
  ∀ cu usuario sid e tabla tabla',
    gestionar_solicitud_db cu usuario sid e tabla = (true, tabla') →
    length tabla' = length tabla
    ∧ ∀ (i : nat) r,
        tabla !! i = Some r →
        ∃ r', tabla' !! i = Some r'
              ∧ SolicitudDB.id r' = SolicitudDB.id r
              ∧ SolicitudDB.solicitante r' = SolicitudDB.solicitante r
              ∧ SolicitudDB.fecha_inicio_str r' = SolicitudDB.fecha_inicio_str r
              ∧ SolicitudDB.fecha_fin_str r' = SolicitudDB.fecha_fin_str r
              ∧ SolicitudDB.direccion r' = SolicitudDB.direccion r
              ∧ SolicitudDB.comisaria_cercana r' = SolicitudDB.comisaria_cercana r
              ∧ SolicitudDB.contacto r' = SolicitudDB.contacto r
              ∧ SolicitudDB.servicio r' = SolicitudDB.servicio r
              ∧ (SolicitudDB.id r ≠ sid → r' = r).
Proof.
  intros cu usuario sid e tabla tabla' H.
  destruct (gestionar_solicitud_db_casos cu usuario sid e tabla)
    as [[Hf _]|(Ht & _)]; [congruence|].
  rewrite Ht in H. injection H as <-.
  split; [apply commit_update_length|].
  intros i r Hi. rewrite commit_update_lookup, Hi. cbn [fmap option_fmap option_map].
  eexists; split; [reflexivity|].
  destruct (Z.eqb_spec (SolicitudDB.id r) sid) as [Heq|Hne].
  - cbn [asignar SolicitudDB.id SolicitudDB.solicitante SolicitudDB.fecha_inicio_str
         SolicitudDB.fecha_fin_str SolicitudDB.direccion SolicitudDB.comisaria_cercana
         SolicitudDB.contacto SolicitudDB.servicio].
    repeat split; done.
  - repeat split; done.
Qed.

Lemma gestionar_solicitud_db_marco_witness :
  length [aprobada_ejemplo] = length [solicitud_ejemplo]
  ∧ ∀ (i : nat) r,
      [solicitud_ejemplo] !! i = Some r →
      ∃ r', [aprobada_ejemplo] !! i = Some r'
            ∧ SolicitudDB.id r' = SolicitudDB.id r
            ∧ SolicitudDB.solicitante r' = SolicitudDB.solicitante r
            ∧ SolicitudDB.fecha_inicio_str r' = SolicitudDB.fecha_inicio_str r
            ∧ SolicitudDB.fecha_fin_str r' = SolicitudDB.fecha_fin_str r
            ∧ SolicitudDB.direccion r' = SolicitudDB.direccion r
            ∧ SolicitudDB.comisaria_cercana r' = SolicitudDB.comisaria_cercana r
            ∧ SolicitudDB.contacto r' = SolicitudDB.contacto r
            ∧ SolicitudDB.servicio r' = SolicitudDB.servicio r
            ∧ (SolicitudDB.id r ≠ 1 → r' = r).
Proof.
  apply (gestionar_solicitud_db_marco (LoggedIn admin_ejemplo) "victor_admin" 1
           "APROBADA" [solicitud_ejemplo] [aprobada_ejemplo]).
  vm_compute. reflexivity.
Defined.

(** C7: the engine has no guard on the current state: on a row that is
    already "APROBADA" or "RECHAZADA", a call made under an actor holding
    "gestionar_solicitud" succeeds for every target string and leaves the
    row with that state and the given authorizer. *)
Theorem gestionar_solicitud_db_reentrada :
  ∀ cu usuario sid e tabla r,
    tiene_permiso cu "gestionar_solicitud" = true →
    query_get sid tabla = Some r →
    SolicitudDB.estado r = "APROBADA" ∨ SolicitudDB.estado r = "RECHAZADA" →
    ∃ tabla' r',
      gestionar_solicitud_db cu usuario sid e tabla = (true, tabla')
      ∧ query_get sid tabla' = Some r'
      ∧ SolicitudDB.estado r' = e
      ∧ SolicitudDB.autorizador r' = Some usuario.
Proof.
  intros cu usuario sid e tabla r Hp Hr _.
  exists (commit_update sid e usuario tabla), (asignar e usuario r).
  unfold gestionar_solicitud_db. rewrite Hp, Hr. cbn [negb].
  split; [done|]. rewrite query_get_commit_update, Hr. done.
Qed.

Lemma gestionar_solicitud_db_reentrada_witness :
  ∃ tabla' r',
    gestionar_solicitud_db (LoggedIn admin_ejemplo) "victor_admin" 1 "RECHAZADA"
      [aprobada_ejemplo] = (true, tabla')
    ∧ query_get 1 tabla' = Some r'
    ∧ SolicitudDB.estado r' = "RECHAZADA"
    ∧ SolicitudDB.autorizador r' = Some "victor_admin".
Proof.
  apply (gestionar_solicitud_db_reentrada (LoggedIn admin_ejemplo) "victor_admin" 1
           "RECHAZADA" [aprobada_ejemplo] aprobada_ejemplo).
  - vm_compute. reflexivity.
  - vm_compute. reflexivity.
  - left. vm_compute. reflexivity.
Defined.

(** ** Submission followed by approval *)

Lemma formulario_solicitud_POST cu form tabla
    solicitante inicio fin direccion comisaria contacto servicio :
  form !! "solicitante" = Some solicitante → form !! "inicio" = Some inicio →
  form !! "fin" = Some fin → form !! "direccion" = Some direccion →
  form !! "comisaria" = Some comisaria → form !! "contacto" = Some contacto →
  form !! "servicio" = Some servicio →
  formulario_solicitud cu POST form tabla =
  (Redirect "confirmacion" (Some (siguiente_id tabla)) None,
   tabla ++ [SolicitudDB.mk (siguiente_id tabla) solicitante inicio fin
               direccion comisaria contacto servicio "PENDIENTE" None]).
Proof.
  intros H1 H2 H3 H4 H5 H6 H7. unfold formulario_solicitud.
  rewrite H1, H2, H3, H4, H5, H6, H7. reflexivity.
Qed.

(** C5: a POST of the public form, made by any actor (logged in or not)
    with its seven fields present, appends to the stored rows one row
    under a fresh id that holds exactly the submitted fields, in state
    "PENDIENTE" with no authorizer; when a logged-in user holding
    "gestionar_solicitud" then sends the action "APROBADA" for that row,
    the engine succeeds and the table is the stored rows followed by the
    same row with state "APROBADA" and that user's name as authorizer. *)
Theorem envio_y_aprobacion :
  ∀ cu form tabla u,
    (∀ k, k ∈ ["solicitante"; "inicio"; "fin"; "direccion"; "comisaria";
               "contacto"; "servicio"] → is_Some (form !! k)) →
    tiene_permiso (LoggedIn u) "gestionar_solicitud" = true →
    ∃ nid tabla1 r1,
      formulario_solicitud cu POST form tabla
        = (Redirect "confirmacion" (Some nid) None, tabla1)
      ∧ tabla1 = tabla ++ [r1]
      ∧ (∀ r, r ∈ tabla → SolicitudDB.id r ≠ nid)
      ∧ SolicitudDB.id r1 = nid
      ∧ form !! "solicitante" = Some (SolicitudDB.solicitante r1)
      ∧ form !! "inicio" = Some (SolicitudDB.fecha_inicio_str r1)
      ∧ form !! "fin" = Some (SolicitudDB.fecha_fin_str r1)
      ∧ form !! "direccion" = Some (SolicitudDB.direccion r1)
      ∧ form !! "comisaria" = Some (SolicitudDB.comisaria_cercana r1)
      ∧ form !! "contacto" = Some (SolicitudDB.contacto r1)
      ∧ form !! "servicio" = Some (SolicitudDB.servicio r1)
      ∧ query_get nid tabla1 = Some r1
      ∧ SolicitudDB.estado r1 = "PENDIENTE"
      ∧ SolicitudDB.autorizador r1 = None
      ∧ ∃ tabla2 r2,
          gestionar_solicitud_db (LoggedIn u) (Usuario.username u) nid "APROBADA" tabla1
            = (true, tabla2)
          ∧ (gestionar (LoggedIn u) nid "APROBADA" tabla1).2 = tabla2
          ∧ tabla2 = tabla ++ [r2]
          ∧ query_get nid tabla2 = Some r2
          ∧ SolicitudDB.estado r2 = "APROBADA"
          ∧ SolicitudDB.autorizador r2 = Some (Usuario.username u)
          ∧ SolicitudDB.id r2 = SolicitudDB.id r1
          ∧ SolicitudDB.solicitante r2 = SolicitudDB.solicitante r1
          ∧ SolicitudDB.fecha_inicio_str r2 = SolicitudDB.fecha_inicio_str r1
          ∧ SolicitudDB.fecha_fin_str r2 = SolicitudDB.fecha_fin_str r1
          ∧ SolicitudDB.direccion r2 = SolicitudDB.direccion r1
          ∧ SolicitudDB.comisaria_cercana r2 = SolicitudDB.comisaria_cercana r1
          ∧ SolicitudDB.contacto r2 = SolicitudDB.contacto r1
          ∧ SolicitudDB.servicio r2 = SolicitudDB.servicio r1.
Proof.
  intros cu form tabla u Hform Hp.
  destruct (Hform "solicitante") as [solicitante H1]; [set_solver|].
  destruct (Hform "inicio") as [inicio H2]; [set_solver|].
  destruct (Hform "fin") as [fin H3]; [set_solver|].
  destruct (Hform "direccion") as [direccion H4]; [set_solver|].
  destruct (Hform "comisaria") as [comisaria H5]; [set_solver|].
  destruct (Hform "contacto") as [contacto H6]; [set_solver|].
  destruct (Hform "servicio") as [servicio H7]; [set_solver|].
  rewrite (formulario_solicitud_POST cu form tabla _ _ _ _ _ _ _ H1 H2 H3 H4 H5 H6 H7).
  set (nueva := SolicitudDB.mk (siguiente_id tabla) solicitante inicio fin
                  direccion comisaria contacto servicio "PENDIENTE" None).
  assert (Hget : query_get (siguiente_id tabla) (tabla ++ [nueva]) = Some nueva).
  { apply (query_get_snoc_nueva tabla nueva). reflexivity. }
  exists (siguiente_id tabla), (tabla ++ [nueva]), nueva.
  split; [done|]. split; [done|]. split.
  { intros r Hr Heq. apply siguiente_id_cota in Hr. lia. }
  do 8 (split; [done|]). split; [exact Hget|]. split; [done|]. split; [done|].
  exists (tabla ++ [asignar "APROBADA" (Usuario.username u) nueva]),
         (asignar "APROBADA" (Usuario.username u) nueva).
  assert (Hg : gestionar_solicitud_db (LoggedIn u) (Usuario.username u) (siguiente_id tabla)
                 "APROBADA" (tabla ++ [nueva])
               = (true, tabla ++ [asignar "APROBADA" (Usuario.username u) nueva])).
  { unfold gestionar_solicitud_db. rewrite Hp, Hget. cbn [negb].
    by rewrite <- (commit_update_snoc_nueva "APROBADA" (Usuario.username u) tabla nueva eq_refl). }
  split; [exact Hg|]. split; [cbn [gestionar snd]; by rewrite Hg|].
  split; [done|]. split; [|by repeat split].
  apply (query_get_snoc_nueva tabla (asignar "APROBADA" (Usuario.username u) nueva)).
  reflexivity.
Qed.

Lemma envio_y_aprobacion_witness :
  ∃ nid tabla1 r1,
    formulario_solicitud AnonymousUser POST form_ejemplo [rechazada_previa_ejemplo]
      = (Redirect "confirmacion" (Some nid) None, tabla1)
    ∧ tabla1 = [rechazada_previa_ejemplo] ++ [r1]
    ∧ (∀ r, r ∈ [rechazada_previa_ejemplo] → SolicitudDB.id r ≠ nid)
    ∧ SolicitudDB.id r1 = nid
    ∧ form_ejemplo !! "solicitante" = Some (SolicitudDB.solicitante r1)
    ∧ form_ejemplo !! "inicio" = Some (SolicitudDB.fecha_inicio_str r1)
    ∧ form_ejemplo !! "fin" = Some (SolicitudDB.fecha_fin_str r1)
    ∧ form_ejemplo !! "direccion" = Some (SolicitudDB.direccion r1)
    ∧ form_ejemplo !! "comisaria" = Some (SolicitudDB.comisaria_cercana r1)
    ∧ form_ejemplo !! "contacto" = Some (SolicitudDB.contacto r1)
    ∧ form_ejemplo !! "servicio" = Some (SolicitudDB.servicio r1)
    ∧ query_get nid tabla1 = Some r1
    ∧ SolicitudDB.estado r1 = "PENDIENTE"
    ∧ SolicitudDB.autorizador r1 = None
    ∧ ∃ tabla2 r2,
        gestionar_solicitud_db (LoggedIn admin_ejemplo) (Usuario.username admin_ejemplo)
          nid "APROBADA" tabla1 = (true, tabla2)
        ∧ (gestionar (LoggedIn admin_ejemplo) nid "APROBADA" tabla1).2 = tabla2
        ∧ tabla2 = [rechazada_previa_ejemplo] ++ [r2]
        ∧ query_get nid tabla2 = Some r2
        ∧ SolicitudDB.estado r2 = "APROBADA"
        ∧ SolicitudDB.autorizador r2 = Some (Usuario.username admin_ejemplo)
        ∧ SolicitudDB.id r2 = SolicitudDB.id r1
        ∧ SolicitudDB.solicitante r2 = SolicitudDB.solicitante r1
        ∧ SolicitudDB.fecha_inicio_str r2 = SolicitudDB.fecha_inicio_str r1
        ∧ SolicitudDB.fecha_fin_str r2 = SolicitudDB.fecha_fin_str r1
        ∧ SolicitudDB.direccion r2 = SolicitudDB.direccion r1
        ∧ SolicitudDB.comisaria_cercana r2 = SolicitudDB.comisaria_cercana r1
        ∧ SolicitudDB.contacto r2 = SolicitudDB.contacto r1
        ∧ SolicitudDB.servicio r2 = SolicitudDB.servicio r1.
Proof.
  apply (envio_y_aprobacion AnonymousUser form_ejemplo [rechazada_previa_ejemplo]
           admin_ejemplo).
  - intros k Hk.
    repeat (apply elem_of_cons in Hk as [->|Hk]; [vm_compute; eauto|]).
    by apply elem_of_nil in Hk.
  - vm_compute. reflexivity.
Defined.

(** ** The authorizer invariant *)

Lemma coherente_nueva id s i f d c ct sv :
  autorizador_coherente (SolicitudDB.mk id s i f d c ct sv "PENDIENTE" None).
Proof.
  unfold autorizador_coherente. cbn. split.
  - intros [x Hx]. discriminate.
  - intros H. by destruct H.
Qed.

Lemma coherente_asignar e usuario r :
  e ≠ "PENDIENTE" → autorizador_coherente (asignar e usuario r).
Proof. intros He. unfold autorizador_coherente. cbn. split; eauto. Qed.

Lemma formulario_solicitud_coherente cu method form tabla :
  Forall autorizador_coherente tabla →
  Forall autorizador_coherente (formulario_solicitud cu method form tabla).2.
Proof.
  intros H. unfold formulario_solicitud. destruct method; [done|].
  destruct (form !! "solicitante") as [?|]; cbn; [|done].
  destruct (form !! "inicio") as [?|]; cbn; [|done].
  destruct (form !! "fin") as [?|]; cbn; [|done].
  destruct (form !! "direccion") as [?|]; cbn; [|done].
  destruct (form !! "comisaria") as [?|]; cbn; [|done].
  destruct (form !! "contacto") as [?|]; cbn; [|done].
  destruct (form !! "servicio") as [?|]; cbn; [|done].
  apply Forall_app. split; [done|].
  apply Forall_singleton, coherente_nueva.
Qed.

Lemma gestionar_coherente cu sid accion tabla :
  accion ≠ "PENDIENTE" ∨ tiene_permiso cu "gestionar_solicitud" = false →
  Forall autorizador_coherente tabla →
  Forall autorizador_coherente (gestionar cu sid accion tabla).2.
Proof.
  intros Hok H. destruct cu as [|u]; [done|]. cbn [gestionar snd].
  destruct (gestionar_solicitud_db_casos (LoggedIn u) (Usuario.username u) sid accion tabla)
    as [[-> _]|(-> & Hp & _)]; [done|]. cbn [snd].
  destruct Hok as [Hne|Hf]; [|congruence].
  unfold commit_update. apply Forall_fmap. eapply Forall_impl; [exact H|].
  intros r Hr. cbn. destruct (Z.eqb (SolicitudDB.id r) sid); [|done].
  by apply coherente_asignar.
Qed.

Lemma eliminar_solicitud_coherente cu id tabla :
  Forall autorizador_coherente tabla →
  Forall autorizador_coherente (eliminar_solicitud cu id tabla).2.
Proof.
  intros H. unfold eliminar_solicitud. destruct cu as [|u]; [done|].
  destruct (tiene_permiso _ _); [|done].
  destruct (query_get id tabla) as [sol|]; [|done]. cbn [snd].
  unfold commit_delete. apply Forall_forall. intros r Hr.
  apply list_elem_of_In, filter_In in Hr as [Hr _].
  apply list_elem_of_In in Hr. by eapply Forall_forall in H.
Qed.

Lemma ejecutar_coherente o tabla :
  sin_vuelta_a_pendiente o →
  Forall autorizador_coherente tabla →
  Forall autorizador_coherente (ejecutar o tabla).
Proof.
  destruct o as [cu form|cu sid accion|cu id]; cbn [ejecutar sin_vuelta_a_pendiente]; intros Hok H.
  - by apply formulario_solicitud_coherente.
  - by apply gestionar_coherente.
  - by apply eliminar_solicitud_coherente.
Qed.

Lemma alcanzable_coherente tabla :
  alcanzable sin_vuelta_a_pendiente tabla → Forall autorizador_coherente tabla.
Proof.
  induction 1 as [|tabla o _ IH Hok]; [constructor|].
  by apply ejecutar_coherente.
Qed.

(** One half of the invariant needs no restriction on the operations: in
    every reachable table a row that is not pending has an authorizer. *)
Lemma alcanzable_no_pendiente_autorizada tabla :
  alcanzable cualquiera tabla →
  Forall (λ r, SolicitudDB.estado r ≠ "PENDIENTE" → is_Some (SolicitudDB.autorizador r)) tabla.
Proof.
  induction 1 as [|tabla o _ IH _]; [constructor|].
  destruct o as [cu form|cu sid accion|cu id]; cbn [ejecutar].
  - unfold formulario_solicitud.
    destruct (form !! "solicitante") as [?|]; cbn; [|done].
    destruct (form !! "inicio") as [?|]; cbn; [|done].
    destruct (form !! "fin") as [?|]; cbn; [|done].
    destruct (form !! "direccion") as [?|]; cbn; [|done].
    destruct (form !! "comisaria") as [?|]; cbn; [|done].
    destruct (form !! "contacto") as [?|]; cbn; [|done].
    destruct (form !! "servicio") as [?|]; cbn; [|done].
    apply Forall_app. split; [done|]. apply Forall_singleton. cbn. done.
  - destruct cu as [|u]; [done|]. cbn [gestionar snd].
    destruct (gestionar_solicitud_db_casos (LoggedIn u) (Usuario.username u) sid accion tabla)
      as [[-> _]|(-> & _)]; [done|]. cbn [snd].
    unfold commit_update. apply Forall_fmap. eapply Forall_impl; [exact IH|].
    intros r Hr. cbn. destruct (Z.eqb (SolicitudDB.id r) sid); [|done]. cbn. eauto.
  - unfold eliminar_solicitud. destruct cu as [|u]; [done|].
    destruct (tiene_permiso _ _); [|done].
    destruct (query_get id tabla) as [sol|]; [|done]. cbn [snd].
    unfold commit_delete. apply Forall_forall. intros r Hr.
    apply list_elem_of_In, filter_In in Hr as [Hr _].
    apply list_elem_of_In in Hr. by eapply Forall_forall in IH.
Qed.

(** C1, as amended: in every table reachable by public submissions,
    deletions and transitions other than a permitted transition to the
    string "PENDIENTE", each row has an authorizer exactly when its state
    is not "PENDIENTE", and each such operation keeps it so. *)
Theorem invariante_autorizador :
  ∀ tabla,
    alcanzable sin_vuelta_a_pendiente tabla →
    (∀ r, r ∈ tabla → autorizador_coherente r)
    ∧ ∀ o, sin_vuelta_a_pendiente o →
           ∀ r, r ∈ ejecutar o tabla → autorizador_coherente r.
Proof.
  intros tabla Halc. apply alcanzable_coherente in Halc as H. split.
  - intros r Hr. by eapply Forall_forall in H.
  - intros o Hok r Hr.
    pose proof (ejecutar_coherente o tabla Hok H) as H'.
    by eapply Forall_forall in H'.
Qed.

Lemma invariante_autorizador_witness :
  let tabla := ejecutar (Transicion (LoggedIn admin_ejemplo) 1 "APROBADA")
                 (ejecutar (Enviar AnonymousUser form_ejemplo) []) in
  (∀ r, r ∈ tabla → autorizador_coherente r)
  ∧ ∀ o, sin_vuelta_a_pendiente o →
         ∀ r, r ∈ ejecutar o tabla → autorizador_coherente r.
Proof.
  apply (invariante_autorizador
           (ejecutar (Transicion (LoggedIn admin_ejemplo) 1 "APROBADA")
              (ejecutar (Enviar AnonymousUser form_ejemplo) []))).
  apply alcanzable_paso; [apply alcanzable_paso; [apply alcanzable_inicial|]|].
  - simpl. exact I.
  - simpl. left. discriminate.
Defined.

(** C1 as stated fails: after a public submission, the seeded
    administrator sending the action "PENDIENTE" for the new row leaves a
    reachable table whose row is pending and has an authorizer. *)
Lemma invariante_autorizador_contraejemplo :
  ¬ (∀ tabla, alcanzable cualquiera tabla →
              ∀ r, r ∈ tabla → autorizador_coherente r).
Proof.
  intros H.
  pose (tabla := ejecutar (Transicion (LoggedIn admin_ejemplo) 1 "PENDIENTE")
                   (ejecutar (Enviar AnonymousUser form_ejemplo) [])).
  assert (Halc : alcanzable cualquiera tabla).
  { apply alcanzable_paso; [apply alcanzable_paso; [apply alcanzable_inicial|]|]; exact I. }
  assert (Hin : asignar "PENDIENTE" "victor_admin"
                  (SolicitudDB.mk 1 "Ana Rojas" "2024-03-01" "2024-03-05" "Av. Central 123"
                     "Comisaria 4" "555-0101" "Mudanza" "PENDIENTE" None) ∈ tabla).
  { vm_compute. apply list_elem_of_here. }
  destruct (H tabla Halc _ Hin) as [Hc _].
  apply Hc; [cbn; eauto | reflexivity].
Qed.

(** ** Requests in force on a date *)

Lemma leb_compare a b : String.leb a b = true ↔ String.compare a b ≠ Gt.
Proof. unfold String.leb. destruct (String.compare a b); split; congruence. Qed.

Lemma geb_compare a b : String.leb b a = true ↔ String.compare a b ≠ Lt.
Proof.
  unfold String.leb. rewrite (String.compare_antisym a b).
  destruct (String.compare b a); cbn; split; congruence.
Qed.

Lemma filter_sublist {A} (f : A → bool) (l : list A) : sublist (List.filter f l) l.
Proof.
  induction l as [|x l IH]; cbn [List.filter]; [constructor|].
  destruct (f x); by constructor.
Qed.

(** C4: for every table and every date string, the filter of the "hoy"
    listing and of the daily report returns, in table order and without
    repetition, exactly the rows whose start is not after the date and
    whose end is not before it in the lexicographic order of strings;
    a row from "2024-01-10" to "2024-01-20" is returned for the 10th,
    15th and 20th of that month and not for the 9th and the 21st. *)
Theorem solicitudes_vigentes_exacto :
  ∀ hoy_str tabla,
    (∀ r, r ∈ solicitudes_vigentes hoy_str tabla ↔
          r ∈ tabla
          ∧ String.compare (SolicitudDB.fecha_inicio_str r) hoy_str ≠ Gt
          ∧ String.compare (SolicitudDB.fecha_fin_str r) hoy_str ≠ Lt)
    ∧ sublist (solicitudes_vigentes hoy_str tabla) tabla
    ∧ (lista_general_solicitudes (Some "hoy") hoy_str tabla).2
      = solicitudes_vigentes hoy_str tabla
    ∧ ∀ r, SolicitudDB.fecha_inicio_str r = "2024-01-10" →
           SolicitudDB.fecha_fin_str r = "2024-01-20" →
           solicitudes_vigentes "2024-01-10" [r] = [r]
           ∧ solicitudes_vigentes "2024-01-15" [r] = [r]
           ∧ solicitudes_vigentes "2024-01-20" [r] = [r]
           ∧ solicitudes_vigentes "2024-01-09" [r] = []
           ∧ solicitudes_vigentes "2024-01-21" [r] = [].
Proof.
  intros hoy_str tabla. split; [|split; [|split]].
  - intros r. unfold solicitudes_vigentes.
    rewrite list_elem_of_In, filter_In, <- list_elem_of_In, andb_true_iff.
    rewrite leb_compare, geb_compare. done.
  - apply filter_sublist.
  - reflexivity.
  - intros r Hi Hf. unfold solicitudes_vigentes. cbn [List.filter].
    rewrite Hi, Hf. vm_compute. done.
Qed.

Lemma solicitudes_vigentes_exacto_witness :
  solicitudes_vigentes "2024-01-10" [solicitud_ejemplo] = [solicitud_ejemplo]
  ∧ solicitudes_vigentes "2024-01-15" [solicitud_ejemplo] = [solicitud_ejemplo]
  ∧ solicitudes_vigentes "2024-01-20" [solicitud_ejemplo] = [solicitud_ejemplo]
  ∧ solicitudes_vigentes "2024-01-09" [solicitud_ejemplo] = []
  ∧ solicitudes_vigentes "2024-01-21" [solicitud_ejemplo] = [].
Proof.
  apply (proj2 (proj2 (proj2 (solicitudes_vigentes_exacto "2024-01-15" [])))
           solicitud_ejemplo); reflexivity.
Defined.

(** The daily report projects the same rows. *)
Lemma descargar_pdf_hoy_vigentes fmt cu hoy_str tabla :
  is_authenticated cu = true → tiene_permiso cu "generar_pdf" = true →
  descargar_pdf_hoy fmt cu hoy_str tabla
  = generar_pdf_historial fmt (Some (solicitudes_vigentes hoy_str tabla)) tabla.
Proof. intros Ha Hp. unfold descargar_pdf_hoy. by rewrite Ha, Hp. Qed.

(** ** Users *)

Lemma filter_by_username_existente (usuarios : list Usuario.t) u :
  u ∈ usuarios →
  ∃ u', filter_by_username (Some (Usuario.username u)) usuarios = Some u'
        ∧ u' ∈ usuarios ∧ Usuario.username u' = Usuario.username u.
Proof.
  intros Hin. cbn [filter_by_username].
  destruct (find _ usuarios) as [u'|] eqn:E.
  - exists u'. apply find_some in E as [Hin' Heq].
    apply bool_decide_eq_true in Heq. split; [done|]. split; [|done].
    by apply list_elem_of_In.
  - apply list_elem_of_In in Hin. pose proof (find_none _ _ E u Hin) as Hn.
    cbn in Hn. apply bool_decide_eq_false in Hn. done.
Qed.

(** C8: when the table holds a user whose name equals, character for
    character, the name sent in the form, [gestionar_usuarios] leaves the
    user table as it was (no row added, none altered) whoever asks and
    with whatever method, and a permitted POST answers with the flash
    "Usuario ya existe."; a name that differs only in case is not a
    duplicate. *)
Theorem gestionar_usuarios_duplicado :
  ∀ (generate_password_hash : string → string) cu method form usuarios u,
    u ∈ usuarios →
    form !! "username" = Some (Usuario.username u) →
    (gestionar_usuarios generate_password_hash cu method form usuarios).2 = usuarios
    ∧ (tiene_permiso cu "gestionar_usuarios" = true → method = POST →
       (gestionar_usuarios generate_password_hash cu method form usuarios).1
       = Render "gestionar_usuarios.html" (Some ("error", "Usuario ya existe.")))
    ∧ ¬ (∃ u', u' ∈ (gestionar_usuarios generate_password_hash cu method form usuarios).2
               ∧ u' ∉ usuarios).
Proof.
  intros gph cu method form usuarios u Hin Hform.
  destruct (filter_by_username_existente usuarios u Hin) as (u' & Hf & _ & _).
  assert (Hsame : (gestionar_usuarios gph cu method form usuarios).2 = usuarios).
  { unfold gestionar_usuarios. destruct cu as [|a]; [done|].
    destruct (tiene_permiso _ _); cbn [negb]; [|done].
    destruct method; [done|]. by rewrite Hform, Hf. }
  split; [exact Hsame|]. split.
  - intros Hp ->. unfold gestionar_usuarios. destruct cu as [|a]; [done|].
    by rewrite Hp, Hform, Hf.
  - rewrite Hsame. by intros (x & H1 & H2).
Qed.

Lemma gestionar_usuarios_duplicado_witness :
  let form : gmap string string :=
    list_to_map [("username", "GUARDIA"); ("password", "otra"); ("rol", "Administrador")] in
  let usuarios := [admin_ejemplo; guardia_ejemplo] in
  (gestionar_usuarios hash_ejemplo (LoggedIn admin_ejemplo) POST form usuarios).2 = usuarios
  ∧ (tiene_permiso (LoggedIn admin_ejemplo) "gestionar_usuarios" = true → POST = POST →
     (gestionar_usuarios hash_ejemplo (LoggedIn admin_ejemplo) POST form usuarios).1
     = Render "gestionar_usuarios.html" (Some ("error", "Usuario ya existe.")))
  ∧ ¬ (∃ u', u' ∈ (gestionar_usuarios hash_ejemplo (LoggedIn admin_ejemplo) POST form usuarios).2
             ∧ u' ∉ usuarios).
Proof.
  apply (gestionar_usuarios_duplicado hash_ejemplo (LoggedIn admin_ejemplo) POST
           (list_to_map [("username", "GUARDIA"); ("password", "otra"); ("rol", "Administrador")])
           [admin_ejemplo; guardia_ejemplo] guardia_ejemplo).
  - apply list_elem_of_further, list_elem_of_here.
  - vm_compute. reflexivity.
Defined.

(** The sample administrator and guard are the accounts seeded at start-up. *)
Example usuarios_iniciales_ejemplo :
  usuarios_iniciales hash_ejemplo = [admin_ejemplo; guardia_ejemplo].
Proof. reflexivity. Qed.

(** The match is case-sensitive: "guardia" is created next to "GUARDIA". *)
Example gestionar_usuarios_distingue_mayusculas :
  (gestionar_usuarios hash_ejemplo (LoggedIn admin_ejemplo) POST
     (list_to_map [("username", "guardia"); ("password", "otra"); ("rol", "Guardia")])
     [admin_ejemplo; guardia_ejemplo]).2
  = [admin_ejemplo; guardia_ejemplo;
     Usuario.mk 3 "guardia" (Some (hash_ejemplo "otra")) "Guardia"].
Proof. vm_compute. reflexivity. Qed.

(** C10: a user whose [password_hash] is NULL fails [check_password] for
    every candidate, present or not, without the hash check being called
    (so without an exception), and no call of [login] from an anonymous
    session ends with that user logged in; when the name sent designates
    that user the answer is the "Credenciales inválidas." page. *)
Theorem check_password_sin_hash :
  ∀ (check_password_hash : string → option string → option bool) u,
    Usuario.password_hash u = None →
    (∀ password, check_password check_password_hash u password = Some false)
    ∧ (∀ method form usuarios,
         (login check_password_hash AnonymousUser method form usuarios).2 ≠ LoggedIn u)
    ∧ (∀ form usuarios,
         filter_by_username (form !! "username") usuarios = Some u →
         login check_password_hash AnonymousUser POST form usuarios
         = (Render "login.html" (Some ("error", "Credenciales inválidas.")), AnonymousUser)).
Proof.
  intros cph u Hnone.
  assert (Hchk : ∀ password, check_password cph u password = Some false).
  { intros password. unfold check_password. by rewrite Hnone. }
  split; [exact Hchk|]. split.
  - intros method form usuarios. unfold login. cbn [is_authenticated].
    destruct method; [done|].
    destruct (filter_by_username _ usuarios) as [user|]; [|done].
    destruct (check_password cph user (form !! "password")) as [[|]|] eqn:E; [|done|done].
    cbn [snd]. intros Heq. injection Heq as ->. rewrite Hchk in E. discriminate.
  - intros form usuarios Hf. unfold login. cbn [is_authenticated].
    by rewrite Hf, Hchk.
Qed.

Lemma check_password_sin_hash_witness :
  (∀ password, check_password check_ejemplo sin_clave_ejemplo password = Some false)
  ∧ (∀ method form usuarios,
       (login check_ejemplo AnonymousUser method form usuarios).2 ≠ LoggedIn sin_clave_ejemplo)
  ∧ (∀ form usuarios,
       filter_by_username (form !! "username") usuarios = Some sin_clave_ejemplo →
       login check_ejemplo AnonymousUser POST form usuarios
       = (Render "login.html" (Some ("error", "Credenciales inválidas.")), AnonymousUser)).
Proof.
  apply (check_password_sin_hash check_ejemplo sin_clave_ejemplo). reflexivity.
Defined.

(** ** The report table *)

Lemma color_estado_casos estado :
  (estado = "PENDIENTE" → color_estado estado = yellow)
  ∧ (estado = "APROBADA" → color_estado estado = lightgreen)
  ∧ (estado = "RECHAZADA" → color_estado estado = lightcoral)
  ∧ (estado ≠ "PENDIENTE" → estado ≠ "APROBADA" → estado ≠ "RECHAZADA" →
     color_estado estado = white).
Proof.
  repeat split.
  - by intros ->.
  - by intros ->.
  - by intros ->.
  - intros H1 H2 H3. unfold color_estado.
    rewrite !bool_decide_eq_false_2 by done. done.
Qed.

Lemma autorizador_str_casos sol :
  (SolicitudDB.autorizador sol = None ∨ SolicitudDB.autorizador sol = Some "" →
   autorizador_str sol = "N/A")
  ∧ (∀ a, SolicitudDB.autorizador sol = Some a → a ≠ "" → autorizador_str sol = a).
Proof.
  unfold autorizador_str. split.
  - intros [->| ->]; done.
  - intros a -> Hne. by rewrite bool_decide_eq_false_2.
Qed.

Lemma estilo_estados_filas fmt (solicitudes : list SolicitudDB.t) :
  estilo_estados (encabezado :: (fila_de fmt <$> solicitudes))
  = Some (imap (λ i sol, BACKGROUND (5%nat, S i) (5%nat, S i)
                           (color_estado (SolicitudDB.estado sol))) solicitudes).
Proof.
  unfold estilo_estados. apply mapM_Some_2.
  cbn [length]. rewrite Nat.sub_1_r. cbn [Nat.pred]. rewrite length_fmap.
  apply Forall2_same_length_lookup_2.
  - by rewrite length_seq, length_imap.
  - intros i x y Hx Hy. apply lookup_seq in Hx as [-> Hlt].
    rewrite list_lookup_imap in Hy.
    destruct (solicitudes !! i) as [sol|] eqn:E; [|done].
    cbn in Hy. injection Hy as <-.
    cbn [Nat.add]. rewrite lookup_cons_ne_0 by done. cbn [Nat.pred].
    rewrite list_lookup_fmap, E. reflexivity.
Qed.

(** C9, as amended: for every list of requests the projection succeeds
    and yields the header followed by one row per request, in order, with
    the cells id, requester, service, period, address and reference
    composite, state, authorizer text, contact; the authorizer text is
    "N/A" when the authorizer is absent or the empty string and is the
    authorizer's name otherwise; and the state cell (column 5) of each
    data row gets the background yellow for "PENDIENTE", lightgreen for
    "APROBADA", lightcoral for "RECHAZADA" and white for any other state. *)
Theorem generar_pdf_historial_filas :
  ∀ (cambiar_formato : string → option string) lista_solicitudes tabla,
    ∃ data estilo,
      generar_pdf_historial cambiar_formato lista_solicitudes tabla = Some (data, estilo)
      ∧ length data = S (length (default tabla lista_solicitudes))
      ∧ data !! 0%nat = Some encabezado
      ∧ length estilo = length (default tabla lista_solicitudes)
      ∧ ∀ (i : nat) sol,
          default tabla lista_solicitudes !! i = Some sol →
          (∃ texto_autorizador,
              data !! S i =
              Some [pretty (SolicitudDB.id sol); SolicitudDB.solicitante sol;
                    SolicitudDB.servicio sol;
                    get_fecha_inicio cambiar_formato sol +:+ " - " +:+
                      get_fecha_fin cambiar_formato sol;
                    SolicitudDB.direccion sol +:+ salto_de_linea +:+ "(Com.: " +:+
                      SolicitudDB.comisaria_cercana sol +:+ ")";
                    SolicitudDB.estado sol; texto_autorizador; SolicitudDB.contacto sol]
              ∧ (SolicitudDB.autorizador sol = None ∨ SolicitudDB.autorizador sol = Some "" →
                 texto_autorizador = "N/A")
              ∧ (∀ a, SolicitudDB.autorizador sol = Some a → a ≠ "" →
                      texto_autorizador = a))
          ∧ ∃ color,
              estilo !! i = Some (BACKGROUND (5%nat, S i) (5%nat, S i) color)
              ∧ (SolicitudDB.estado sol = "PENDIENTE" → color = yellow)
              ∧ (SolicitudDB.estado sol = "APROBADA" → color = lightgreen)
              ∧ (SolicitudDB.estado sol = "RECHAZADA" → color = lightcoral)
              ∧ (SolicitudDB.estado sol ≠ "PENDIENTE" → SolicitudDB.estado sol ≠ "APROBADA" →
                 SolicitudDB.estado sol ≠ "RECHAZADA" → color = white).
Proof.
  intros fmt lista tabla. unfold generar_pdf_historial.
  set (solicitudes := default tabla lista).
  rewrite estilo_estados_filas. cbn [mbind option_bind].
  eexists _, _. split; [reflexivity|].
  split; [cbn [length]; by rewrite length_fmap|].
  split; [reflexivity|]. split; [apply length_imap|].
  intros i sol Hi. split.
  - exists (autorizador_str sol). split.
    + rewrite lookup_cons_ne_0 by done. cbn [Nat.pred].
      rewrite list_lookup_fmap, Hi. reflexivity.
    + apply autorizador_str_casos.
  - exists (color_estado (SolicitudDB.estado sol)). split.
    + rewrite list_lookup_imap, Hi. reflexivity.
    + apply color_estado_casos.
Qed.

Lemma generar_pdf_historial_filas_witness :
  ∃ data estilo,
    generar_pdf_historial formato_ejemplo None [aprobada_ejemplo] = Some (data, estilo)
    ∧ length data = 2%nat
    ∧ (∃ texto_autorizador,
          data !! 1%nat =
          Some ["1"; "Ana Rojas"; "Mudanza"; "10/01/2024 - 20/01/2024";
                "Av. Central 123" +:+ salto_de_linea +:+ "(Com.: Comisaria 4)";
                "APROBADA"; texto_autorizador; "555-0101"]
          ∧ texto_autorizador = "victor_admin")
    ∧ ∃ color,
        estilo !! 0%nat = Some (BACKGROUND (5%nat, 1%nat) (5%nat, 1%nat) color)
        ∧ color = lightgreen.
Proof.
  destruct (generar_pdf_historial_filas formato_ejemplo None [aprobada_ejemplo])
    as (data & estilo & Hgen & Hlen & _ & _ & Hfilas).
  destruct (Hfilas 0%nat aprobada_ejemplo eq_refl)
    as [(texto & Hfila & _ & Hnombre) (color & Hcolor & _ & Hverde & _)].
  exists data, estilo. split; [exact Hgen|]. split; [exact Hlen|]. split.
  - exists texto. split; [exact Hfila|].
    apply (Hnombre "victor_admin"); [reflexivity|discriminate].
  - exists color. split; [exact Hcolor|]. apply Hverde. reflexivity.
Defined.

(** C9 as stated fails on its "exactly when": a request authorized by a
    user whose name is the text "N/A" shows "N/A" in the authorizer
    column although its authorizer is set. *)
Lemma generar_pdf_historial_contraejemplo :
  ¬ (∀ (cambiar_formato : string → option string) tabla data estilo,
        generar_pdf_historial cambiar_formato None tabla = Some (data, estilo) →
        ∀ (i : nat) sol fila,
          tabla !! i = Some sol → data !! S i = Some fila →
          (fila !! 6%nat = Some "N/A" ↔ SolicitudDB.autorizador sol = None)).
Proof.
  intros H.
  pose (sol := asignar "APROBADA" "N/A" solicitud_ejemplo).
  destruct (H formato_ejemplo [sol] _ _ eq_refl 0%nat sol _ eq_refl eq_refl) as [Hc _].
  specialize (Hc eq_refl). discriminate.
Qed.


(** * Further properties of the request table *)

Lemma commit_update_ids sid e usuario tabla :
  SolicitudDB.id <$> commit_update sid e usuario tabla = SolicitudDB.id <$> tabla.
Proof.
  unfold commit_update. rewrite <- list_fmap_compose. apply list_fmap_ext.
  intros i r _. cbn. by destruct (Z.eqb (SolicitudDB.id r) sid).
Qed.


Lemma query_get_app sid tabla extra :
  query_get sid (tabla ++ extra) =
  match query_get sid tabla with
  | Some r => Some r
  | None => query_get sid extra
  end.
Proof.
  unfold query_get. induction tabla as [|r tabla IH]; cbn [app find]; [done|].
  by destruct (Z.eqb (SolicitudDB.id r) sid).
Qed.

Lemma query_get_commit_delete sid sid' tabla :
  query_get sid' (commit_delete sid tabla) =
  if Z.eqb sid' sid then None else query_get sid' tabla.
Proof.
  unfold query_get, commit_delete.
  induction tabla as [|r tabla IH]; cbn [List.filter find].
  - by destruct (Z.eqb sid' sid).
  - destruct (Z.eqb_spec (SolicitudDB.id r) sid) as [Hr|Hr]; cbn [negb find].
    + rewrite IH. destruct (Z.eqb_spec sid' sid) as [Hs|Hs]; [done|].
      destruct (Z.eqb_spec (SolicitudDB.id r) sid'); [lia|done].
    + destruct (Z.eqb_spec (SolicitudDB.id r) sid') as [Hs|Hs].
      * destruct (Z.eqb_spec sid' sid); [lia|done].
      * exact IH.
Qed.

Lemma formulario_solicitud_casos cu form tabla :
  (∃ nueva,
      formulario_solicitud cu POST form tabla
      = (Redirect "confirmacion" (Some (siguiente_id tabla)) None, tabla ++ [nueva])
      ∧ SolicitudDB.id nueva = siguiente_id tabla
      ∧ form !! "solicitante" = Some (SolicitudDB.solicitante nueva)
      ∧ form !! "inicio" = Some (SolicitudDB.fecha_inicio_str nueva)
      ∧ form !! "fin" = Some (SolicitudDB.fecha_fin_str nueva)
      ∧ form !! "direccion" = Some (SolicitudDB.direccion nueva)
      ∧ form !! "comisaria" = Some (SolicitudDB.comisaria_cercana nueva)
      ∧ form !! "contacto" = Some (SolicitudDB.contacto nueva)
      ∧ form !! "servicio" = Some (SolicitudDB.servicio nueva)
      ∧ SolicitudDB.estado nueva = "PENDIENTE"
      ∧ SolicitudDB.autorizador nueva = None)
  ∨ (formulario_solicitud cu POST form tabla = (BadRequest400, tabla)
     ∧ ∃ k, k ∈ ["solicitante"; "inicio"; "fin"; "direccion"; "comisaria";
                 "contacto"; "servicio"] ∧ form !! k = None).
Proof.
  unfold formulario_solicitud.
  destruct (form !! "solicitante") as [x1|] eqn:E1; cbn;
    [|right; split; [done|]; exists "solicitante"; split; [set_solver|done]].
  destruct (form !! "inicio") as [x2|] eqn:E2; cbn;
    [|right; split; [done|]; exists "inicio"; split; [set_solver|done]].
  destruct (form !! "fin") as [x3|] eqn:E3; cbn;
    [|right; split; [done|]; exists "fin"; split; [set_solver|done]].
  destruct (form !! "direccion") as [x4|] eqn:E4; cbn;
    [|right; split; [done|]; exists "direccion"; split; [set_solver|done]].
  destruct (form !! "comisaria") as [x5|] eqn:E5; cbn;
    [|right; split; [done|]; exists "comisaria"; split; [set_solver|done]].
  destruct (form !! "contacto") as [x6|] eqn:E6; cbn;
    [|right; split; [done|]; exists "contacto"; split; [set_solver|done]].
  destruct (form !! "servicio") as [x7|] eqn:E7; cbn;
    [|right; split; [done|]; exists "servicio"; split; [set_solver|done]].
  left. eexists. split; [reflexivity|]. cbn. repeat split; done.
Qed.





(** X2: submission and confirmation round trip: when the POST of the
    form answers with the redirect to the confirmation of an id, the
    confirmation page of that id shows a row holding exactly the seven
    submitted fields, pending and without authorizer, appended after the
    rows already stored, and the confirmation of every other id answers
    as it did before. *)
Theorem envio_y_confirmacion :
  ∀ cu form tabla nid tabla',
    formulario_solicitud cu POST form tabla
    = (Redirect "confirmacion" (Some nid) None, tabla') →
    ∃ sol,
      confirmacion nid tabla' = Pagina "confirmacion.html" sol
      ∧ tabla' = tabla ++ [sol]
      ∧ SolicitudDB.id sol = nid
      ∧ form !! "solicitante" = Some (SolicitudDB.solicitante sol)
      ∧ form !! "inicio" = Some (SolicitudDB.fecha_inicio_str sol)
      ∧ form !! "fin" = Some (SolicitudDB.fecha_fin_str sol)
      ∧ form !! "direccion" = Some (SolicitudDB.direccion sol)
      ∧ form !! "comisaria" = Some (SolicitudDB.comisaria_cercana sol)
      ∧ form !! "contacto" = Some (SolicitudDB.contacto sol)
      ∧ form !! "servicio" = Some (SolicitudDB.servicio sol)
      ∧ SolicitudDB.estado sol = "PENDIENTE"
      ∧ SolicitudDB.autorizador sol = None
      ∧ ∀ id, id ≠ nid → confirmacion id tabla' = confirmacion id tabla.
Proof.
  intros cu form tabla nid tabla' H.
  destruct (formulario_solicitud_casos cu form tabla)
    as [(nueva & Heq & Hid & Hcampos)|[Heq _]]; rewrite Heq in H; [|discriminate].
  injection H as <- <-. exists nueva.
  split; [|split; [done|split; [done|]]].
  - unfold confirmacion. rewrite <- Hid. by rewrite query_get_snoc_nueva.
  - destruct Hcampos as (?&?&?&?&?&?&?&?&?).
    repeat (split; [done|]).
    intros id Hne. unfold confirmacion. rewrite query_get_app.
    destruct (query_get id tabla); [done|].
    unfold query_get. cbn [find]. rewrite Hid.
    destruct (Z.eqb_spec (siguiente_id tabla) id); [congruence|done].
Qed.

Lemma envio_y_confirmacion_witness :
  ∃ sol,
    confirmacion 1 (formulario_solicitud AnonymousUser POST form_ejemplo []).2
    = Pagina "confirmacion.html" sol
    ∧ (formulario_solicitud AnonymousUser POST form_ejemplo []).2 = [] ++ [sol]
    ∧ SolicitudDB.id sol = 1
    ∧ form_ejemplo !! "solicitante" = Some (SolicitudDB.solicitante sol)
    ∧ form_ejemplo !! "inicio" = Some (SolicitudDB.fecha_inicio_str sol)
    ∧ form_ejemplo !! "fin" = Some (SolicitudDB.fecha_fin_str sol)
    ∧ form_ejemplo !! "direccion" = Some (SolicitudDB.direccion sol)
    ∧ form_ejemplo !! "comisaria" = Some (SolicitudDB.comisaria_cercana sol)
    ∧ form_ejemplo !! "contacto" = Some (SolicitudDB.contacto sol)
    ∧ form_ejemplo !! "servicio" = Some (SolicitudDB.servicio sol)
    ∧ SolicitudDB.estado sol = "PENDIENTE"
    ∧ SolicitudDB.autorizador sol = None
    ∧ ∀ id, id ≠ 1 →
            confirmacion id (formulario_solicitud AnonymousUser POST form_ejemplo []).2
            = confirmacion id [].
Proof.
  apply (envio_y_confirmacion AnonymousUser form_ejemplo [] 1
           (formulario_solicitud AnonymousUser POST form_ejemplo []).2).
  vm_compute. reflexivity.
Defined.

(** X3: a POST of the public form that lacks any one of the seven fields
    is answered with the HTTP 400 and stores nothing, whatever the other
    fields hold and whoever sends it. *)
Theorem formulario_solicitud_campo_ausente :
  ∀ cu form tabla k,
    k ∈ ["solicitante"; "inicio"; "fin"; "direccion"; "comisaria"; "contacto"; "servicio"] →
    form !! k = None →
    formulario_solicitud cu POST form tabla = (BadRequest400, tabla).
Proof.
  intros cu form tabla k Hk Hnone.
  destruct (formulario_solicitud_casos cu form tabla)
    as [(nueva & _ & _ & H1 & H2 & H3 & H4 & H5 & H6 & H7 & _)|[-> _]]; [|done].
  repeat (apply elem_of_cons in Hk as [->|Hk]; [congruence|]).
  by apply elem_of_nil in Hk.
Qed.

Lemma formulario_solicitud_campo_ausente_witness :
  formulario_solicitud AnonymousUser POST (delete "fin" form_ejemplo) [solicitud_ejemplo]
  = (BadRequest400, [solicitud_ejemplo]).
Proof.
  apply (formulario_solicitud_campo_ausente AnonymousUser (delete "fin" form_ejemplo)
           [solicitud_ejemplo] "fin").
  - set_solver.
  - vm_compute. reflexivity.
Defined.

(** X4: a deletion asked by an actor without "gestionar_solicitud"
    (anonymous included), or for an id that no row carries, changes
    nothing and flashes nothing. *)
Theorem eliminar_solicitud_sin_efecto :
  ∀ cu id tabla,
    tiene_permiso cu "gestionar_solicitud" = false
    ∨ ¬ (∃ r, r ∈ tabla ∧ SolicitudDB.id r = id) →
    (eliminar_solicitud cu id tabla).2 = tabla
    ∧ ∀ mensaje, (eliminar_solicitud cu id tabla).1
                 ≠ Redirect "lista_general_solicitudes" None (Some ("success", mensaje)).
Proof.
  intros cu id tabla H. unfold eliminar_solicitud.
  destruct cu as [|u]; [by split|].
  destruct (tiene_permiso (LoggedIn u) "gestionar_solicitud") eqn:Hp.
  - destruct H as [H|H]; [discriminate|].
    apply query_get_None in H. rewrite H. by split.
  - by split.
Qed.

Lemma eliminar_solicitud_sin_efecto_witness :
  (eliminar_solicitud (LoggedIn guardia_ejemplo) 1 [solicitud_ejemplo]).2 = [solicitud_ejemplo]
  ∧ ∀ mensaje, (eliminar_solicitud (LoggedIn guardia_ejemplo) 1 [solicitud_ejemplo]).1
               ≠ Redirect "lista_general_solicitudes" None (Some ("success", mensaje)).
Proof.
  apply (eliminar_solicitud_sin_efecto (LoggedIn guardia_ejemplo) 1 [solicitud_ejemplo]).
  left. vm_compute. reflexivity.
Defined.

(** X5: a deletion by an actor holding "gestionar_solicitud" of an id
    carried by a row flashes "Eliminada.", after which that id is not
    found any more (its confirmation page is the 404), every other id is
    found exactly as before, and the remaining rows keep their order. *)
Theorem eliminar_solicitud_elimina :
  ∀ cu id tabla r,
    tiene_permiso cu "gestionar_solicitud" = true →
    query_get id tabla = Some r →
    (eliminar_solicitud cu id tabla).1
    = Redirect "lista_general_solicitudes" None (Some ("success", "Eliminada."))
    ∧ query_get id (eliminar_solicitud cu id tabla).2 = None
    ∧ confirmacion id (eliminar_solicitud cu id tabla).2 = Codigo 404
    ∧ (∀ id', id' ≠ id →
              query_get id' (eliminar_solicitud cu id tabla).2 = query_get id' tabla)
    ∧ sublist (eliminar_solicitud cu id tabla).2 tabla
    ∧ (length (eliminar_solicitud cu id tabla).2 < length tabla)%nat.
Proof.
  intros cu id tabla r Hp Hr. unfold eliminar_solicitud.
  destruct cu as [|u]; [discriminate|]. rewrite Hp, Hr. cbn [fst snd].
  apply query_get_Some in Hr as [Hin Hid]. rewrite Hid.
  assert (Hgone : query_get id (commit_delete id tabla) = None).
  { rewrite query_get_commit_delete. by rewrite Z.eqb_refl. }
  split; [done|]. split; [exact Hgone|]. split; [unfold confirmacion; by rewrite Hgone|].
  split; [|split].
  - intros id' Hne. rewrite query_get_commit_delete.
    destruct (Z.eqb_spec id' id); [done|done].
  - apply filter_sublist.
  - unfold commit_delete. clear Hgone. induction tabla as [|x tabla IH].
    + by apply elem_of_nil in Hin.
    + cbn [List.filter length].
      pose proof (sublist_length _ _ (filter_sublist
        (λ r, negb (Z.eqb (SolicitudDB.id r) id)) tabla)) as Hle.
      destruct (Z.eqb_spec (SolicitudDB.id x) id) as [Hx|Hx]; cbn [negb length].
      * lia.
      * apply elem_of_cons in Hin as [->|Hin]; [done|]. specialize (IH Hin). lia.
Qed.

Lemma eliminar_solicitud_elimina_witness :
  let tabla := [solicitud_ejemplo; rechazada_ejemplo] in
  (eliminar_solicitud (LoggedIn admin_ejemplo) 1 tabla).1
  = Redirect "lista_general_solicitudes" None (Some ("success", "Eliminada."))
  ∧ query_get 1 (eliminar_solicitud (LoggedIn admin_ejemplo) 1 tabla).2 = None
  ∧ confirmacion 1 (eliminar_solicitud (LoggedIn admin_ejemplo) 1 tabla).2 = Codigo 404
  ∧ (∀ id', id' ≠ 1 →
            query_get id' (eliminar_solicitud (LoggedIn admin_ejemplo) 1 tabla).2
            = query_get id' tabla)
  ∧ sublist (eliminar_solicitud (LoggedIn admin_ejemplo) 1 tabla).2 tabla
  ∧ (length (eliminar_solicitud (LoggedIn admin_ejemplo) 1 tabla).2 < length tabla)%nat.
Proof.
  apply (eliminar_solicitud_elimina (LoggedIn admin_ejemplo) 1
           [solicitud_ejemplo; rechazada_ejemplo] solicitud_ejemplo).
  - vm_compute. reflexivity.
  - vm_compute. reflexivity.
Defined.

Lemma commit_update_commit_update sid e1 u1 e2 u2 tabla :
  commit_update sid e2 u2 (commit_update sid e1 u1 tabla) = commit_update sid e2 u2 tabla.
Proof.
  unfold commit_update. rewrite <- list_fmap_compose. apply list_fmap_ext.
  intros i r _. cbn.
  destruct (Z.eqb (SolicitudDB.id r) sid) eqn:E; cbn [asignar SolicitudDB.id]; by rewrite E.
Qed.

(** X6: the last transition wins: when a call of the engine is made under
    an actor holding "gestionar_solicitud", its result and the table it
    leaves are the same whether or not another call for the same id (by
    any actor, with any target and authorizer) was made just before; in
    particular repeating a call changes nothing more. *)
Theorem gestionar_solicitud_db_ultima_gana :
  ∀ cu1 usuario1 e1 cu2 usuario2 e2 sid tabla,
    tiene_permiso cu2 "gestionar_solicitud" = true →
    gestionar_solicitud_db cu2 usuario2 sid e2
      (gestionar_solicitud_db cu1 usuario1 sid e1 tabla).2
    = gestionar_solicitud_db cu2 usuario2 sid e2 tabla.
Proof.
  intros cu1 u1 e1 cu2 u2 e2 sid tabla Hp.
  destruct (gestionar_solicitud_db_casos cu1 u1 sid e1 tabla)
    as [[-> _]|(-> & _ & r & Hr)]; cbn [snd]; [done|].
  unfold gestionar_solicitud_db. rewrite Hp. cbn [negb].
  rewrite query_get_commit_update, Hr. cbn [fmap option_fmap option_map].
  by rewrite commit_update_commit_update.
Qed.

Lemma gestionar_solicitud_db_ultima_gana_witness :
  gestionar_solicitud_db (LoggedIn admin_ejemplo) "victor_admin" 1 "RECHAZADA"
    (gestionar_solicitud_db (LoggedIn admin_ejemplo) "victor_admin" 1 "APROBADA"
       [solicitud_ejemplo]).2
  = gestionar_solicitud_db (LoggedIn admin_ejemplo) "victor_admin" 1 "RECHAZADA"
      [solicitud_ejemplo].
Proof.
  apply (gestionar_solicitud_db_ultima_gana (LoggedIn admin_ejemplo) "victor_admin"
           "APROBADA" (LoggedIn admin_ejemplo) "victor_admin" "RECHAZADA" 1
           [solicitud_ejemplo]).
  vm_compute. reflexivity.
Defined.

Lemma solicitudes_vigentes_commit_update hoy_str sid e usuario tabla :
  solicitudes_vigentes hoy_str (commit_update sid e usuario tabla)
  = commit_update sid e usuario (solicitudes_vigentes hoy_str tabla).
Proof.
  unfold solicitudes_vigentes, commit_update.
  induction tabla as [|r tabla IH]; [done|].
  cbn [fmap list_fmap List.filter].
  assert (Hd : ∀ x, x = (if Z.eqb (SolicitudDB.id r) sid then asignar e usuario r else r) →
                    SolicitudDB.fecha_inicio_str x = SolicitudDB.fecha_inicio_str r
                    ∧ SolicitudDB.fecha_fin_str x = SolicitudDB.fecha_fin_str r).
  { intros x ->. by destruct (Z.eqb (SolicitudDB.id r) sid). }
  destruct (Hd _ eq_refl) as [-> ->].
  destruct (_ && _); cbn [fmap list_fmap]; [f_equal|]; exact IH.
Qed.

(** X7: a transition never changes which requests are in force: for
    every date the "hoy" listing after a call of the engine is the
    listing before it with the same two fields written on the row of that
    id, so it holds the same ids in the same order. *)
Theorem gestionar_solicitud_db_conserva_vigentes :
  ∀ cu usuario sid e tabla hoy_str,
    SolicitudDB.id <$> solicitudes_vigentes hoy_str
                         (gestionar_solicitud_db cu usuario sid e tabla).2
    = SolicitudDB.id <$> solicitudes_vigentes hoy_str tabla
    ∧ ∀ r, r ∈ solicitudes_vigentes hoy_str tabla → SolicitudDB.id r ≠ sid →
           r ∈ solicitudes_vigentes hoy_str (gestionar_solicitud_db cu usuario sid e tabla).2.
Proof.
  intros cu usuario sid e tabla hoy_str.
  destruct (gestionar_solicitud_db_casos cu usuario sid e tabla)
    as [[-> _]|(-> & _)]; cbn [snd]; [done|].
  rewrite solicitudes_vigentes_commit_update. split.
  - apply commit_update_ids.
  - intros r Hr Hne. unfold commit_update. apply list_elem_of_fmap.
    exists r. split; [|done].
    destruct (Z.eqb_spec (SolicitudDB.id r) sid); [done|done].
Qed.

Lemma gestionar_solicitud_db_conserva_vigentes_witness :
  SolicitudDB.id <$> solicitudes_vigentes "2024-01-15"
    (gestionar_solicitud_db (LoggedIn admin_ejemplo) "victor_admin" 1 "RECHAZADA"
       [solicitud_ejemplo; rechazada_ejemplo]).2
  = [1].
Proof.
  rewrite (proj1 (gestionar_solicitud_db_conserva_vigentes (LoggedIn admin_ejemplo)
                    "victor_admin" 1 "RECHAZADA" [solicitud_ejemplo; rechazada_ejemplo]
                    "2024-01-15")).
  vm_compute. reflexivity.
Defined.

(** ** The pending panel *)

Lemma elem_of_pendientes r tabla :
  r ∈ pendientes tabla ↔ r ∈ tabla ∧ SolicitudDB.estado r = "PENDIENTE".
Proof.
  unfold pendientes.
  rewrite list_elem_of_In, filter_In, <- list_elem_of_In, bool_decide_eq_true. done.
Qed.

Lemma pendientes_app tabla extra :
  pendientes (tabla ++ extra) = pendientes tabla ++ pendientes extra.
Proof. unfold pendientes. apply List.filter_app. Qed.

(** X8: once the engine has moved a request to a state other than
    "PENDIENTE", the panel of any user holding "ver_panel" no longer
    lists a row of that id, while rows of other ids are listed exactly
    when they were stored as pending before the call. *)
Theorem panel_admin_tras_transicion :
  ∀ cu usuario sid e tabla tabla' visor,
    gestionar_solicitud_db cu usuario sid e tabla = (true, tabla') →
    e ≠ "PENDIENTE" →
    tiene_permiso visor "ver_panel" = true →
    ∃ lista,
      panel_admin visor tabla' = Pagina "administrador.html" lista
      ∧ (∀ r, r ∈ lista → SolicitudDB.id r ≠ sid)
      ∧ ∀ r, SolicitudDB.id r ≠ sid →
             (r ∈ lista ↔ r ∈ tabla ∧ SolicitudDB.estado r = "PENDIENTE").
Proof.
  intros cu usuario sid e tabla tabla' visor H He Hv.
  destruct (gestionar_solicitud_db_casos cu usuario sid e tabla)
    as [[Hf _]|(Ht & _)]; [congruence|].
  rewrite Ht in H. injection H as <-.
  destruct visor as [|v]; [discriminate|].
  exists (pendientes (commit_update sid e usuario tabla)).
  split; [unfold panel_admin; by rewrite Hv|].
  assert (Hmem : ∀ r, r ∈ commit_update sid e usuario tabla ↔
                      ∃ r0, r0 ∈ tabla ∧
                            r = if Z.eqb (SolicitudDB.id r0) sid
                                then asignar e usuario r0 else r0).
  { intros r. unfold commit_update. rewrite list_elem_of_fmap.
    split; intros (r0 & Ha & Hb); exists r0; by split. }
  split.
  - intros r Hr Hid. apply elem_of_pendientes in Hr as [Hr Hpend].
    apply Hmem in Hr as (r0 & _ & ->).
    destruct (Z.eqb_spec (SolicitudDB.id r0) sid); [by cbn in Hpend|done].
  - intros r Hne. rewrite elem_of_pendientes, Hmem. split.
    + intros [(r0 & Hin & ->) Hpend].
      destruct (Z.eqb_spec (SolicitudDB.id r0) sid); [by cbn in Hne|done].
    + intros [Hin Hpend]. split; [|done]. exists r. split; [done|].
      destruct (Z.eqb_spec (SolicitudDB.id r) sid); [done|done].
Qed.

Lemma panel_admin_tras_transicion_witness :
  ∃ lista,
    panel_admin (LoggedIn guardia_ejemplo) [aprobada_ejemplo; invertida_ejemplo]
    = Pagina "administrador.html" lista
    ∧ (∀ r, r ∈ lista → SolicitudDB.id r ≠ 1)
    ∧ ∀ r, SolicitudDB.id r ≠ 1 →
           (r ∈ lista ↔ r ∈ [solicitud_ejemplo; invertida_ejemplo]
                        ∧ SolicitudDB.estado r = "PENDIENTE").
Proof.
  apply (panel_admin_tras_transicion (LoggedIn admin_ejemplo) "victor_admin" 1 "APROBADA"
           [solicitud_ejemplo; invertida_ejemplo] [aprobada_ejemplo; invertida_ejemplo]
           (LoggedIn guardia_ejemplo)).
  - vm_compute. reflexivity.
  - discriminate.
  - vm_compute. reflexivity.
Defined.

(** X9: a request accepted by the public form shows up in the panel: for
    any user holding "ver_panel" the panel after the submission is the
    panel before it followed by the new row. *)
Theorem panel_admin_tras_envio :
  ∀ cu form tabla nid tabla' visor,
    formulario_solicitud cu POST form tabla
    = (Redirect "confirmacion" (Some nid) None, tabla') →
    tiene_permiso visor "ver_panel" = true →
    ∃ sol,
      query_get nid tabla' = Some sol
      ∧ panel_admin visor tabla' = Pagina "administrador.html" (pendientes tabla ++ [sol]).
Proof.
  intros cu form tabla nid tabla' visor H Hv.
  destruct (formulario_solicitud_casos cu form tabla)
    as [(nueva & Heq & Hid & Hcampos)|[Heq _]]; rewrite Heq in H; [|discriminate].
  injection H as <- <-. exists nueva. split.
  - rewrite <- Hid. by apply query_get_snoc_nueva.
  - destruct visor as [|v]; [discriminate|]. unfold panel_admin. rewrite Hv. cbn [negb].
    rewrite pendientes_app. f_equal. f_equal.
    destruct Hcampos as (_&_&_&_&_&_&_&Hpend&_).
    unfold pendientes. cbn [List.filter]. by rewrite Hpend.
Qed.

Lemma panel_admin_tras_envio_witness :
  ∃ sol,
    query_get 1 (formulario_solicitud AnonymousUser POST form_ejemplo []).2 = Some sol
    ∧ panel_admin (LoggedIn guardia_ejemplo)
        (formulario_solicitud AnonymousUser POST form_ejemplo []).2
      = Pagina "administrador.html" (pendientes [] ++ [sol]).
Proof.
  apply (panel_admin_tras_envio AnonymousUser form_ejemplo [] 1
           (formulario_solicitud AnonymousUser POST form_ejemplo []).2
           (LoggedIn guardia_ejemplo)).
  - vm_compute. reflexivity.
  - vm_compute. reflexivity.
Defined.

(** ** Who holds which capability *)

Lemma ROLES_otro rol :
  rol ≠ "Administrador" → rol ≠ "Guardia" → rol ≠ "Ventas" → rol ≠ "Editor" →
  ROLES !! rol = None.
Proof.
  intros H1 H2 H3 H4. unfold ROLES. cbn [list_to_map foldr fst snd].
  rewrite !lookup_insert_ne by done. apply lookup_empty.
Qed.

Ltac por_rol u :=
  destruct (decide (Usuario.rol u = "Administrador")) as [Hr|H1];
    [rewrite Hr; vm_compute; intuition (auto; discriminate)|];
  destruct (decide (Usuario.rol u = "Guardia")) as [Hr|H2];
    [rewrite Hr; vm_compute; intuition (auto; discriminate)|];
  destruct (decide (Usuario.rol u = "Ventas")) as [Hr|H3];
    [rewrite Hr; vm_compute; intuition (auto; discriminate)|];
  destruct (decide (Usuario.rol u = "Editor")) as [Hr|H4];
    [rewrite Hr; vm_compute; intuition (auto; discriminate)|];
  unfold ROLES_get; rewrite (ROLES_otro _ H1 H2 H3 H4); cbn;
  rewrite bool_decide_eq_false_2 by apply not_elem_of_nil;
  intuition (auto; discriminate).

(** X10: the role strings are matched exactly: a logged-in user holds
    "gestionar_solicitud", and equally "gestionar_usuarios", if and only
    if its role is the string "Administrador", and holds "ver_panel", and
    equally "generar_pdf", if and only if its role is "Administrador" or
    "Guardia". *)
Theorem capacidades_por_rol :
  ∀ u,
    (tiene_permiso (LoggedIn u) "gestionar_solicitud" = true
     ↔ Usuario.rol u = "Administrador")
    ∧ (tiene_permiso (LoggedIn u) "gestionar_usuarios" = true
       ↔ Usuario.rol u = "Administrador")
    ∧ (tiene_permiso (LoggedIn u) "ver_panel" = true
       ↔ Usuario.rol u = "Administrador" ∨ Usuario.rol u = "Guardia")
    ∧ (tiene_permiso (LoggedIn u) "generar_pdf" = true
       ↔ Usuario.rol u = "Administrador" ∨ Usuario.rol u = "Guardia").
Proof.
  intros u. cbn [tiene_permiso]. repeat split; por_rol u.
Qed.

Lemma sin_rol_administrador u :
  Usuario.rol u ≠ "Administrador" →
  tiene_permiso (LoggedIn u) "gestionar_solicitud" = false
  ∧ tiene_permiso (LoggedIn u) "gestionar_usuarios" = false.
Proof.
  intros Hne. cbn [tiene_permiso]. split; por_rol u.
Qed.

(** X11: an actor that is anonymous or whose role is not
    "Administrador" can neither alter nor remove a stored request, nor
    change the user table: the engine returns false, the transition view,
    the deletion view and the user-management view leave the tables as
    they were, and the one write open to it, the public form, keeps the
    stored rows in place and at most appends one row, pending and without
    authorizer. *)
Theorem no_administrador_solo_lectura :
  ∀ cu,
    (∀ u, cu = LoggedIn u → Usuario.rol u ≠ "Administrador") →
    ∀ (generate_password_hash : string → string) usuario sid e tabla method form usuarios,
      gestionar_solicitud_db cu usuario sid e tabla = (false, tabla)
      ∧ (gestionar cu sid e tabla).2 = tabla
      ∧ (eliminar_solicitud cu sid tabla).2 = tabla
      ∧ (gestionar_usuarios generate_password_hash cu method form usuarios).2 = usuarios
      ∧ ((formulario_solicitud cu method form tabla).2 = tabla
         ∨ ∃ nueva,
             (formulario_solicitud cu method form tabla).2 = tabla ++ [nueva]
             ∧ SolicitudDB.estado nueva = "PENDIENTE"
             ∧ SolicitudDB.autorizador nueva = None).
Proof.
  intros cu Hcu gph usuario sid e tabla method form usuarios.
  assert (Hform : (formulario_solicitud cu method form tabla).2 = tabla
                  ∨ ∃ nueva,
                      (formulario_solicitud cu method form tabla).2 = tabla ++ [nueva]
                      ∧ SolicitudDB.estado nueva = "PENDIENTE"
                      ∧ SolicitudDB.autorizador nueva = None).
  { destruct method; [by left|].
    destruct (formulario_solicitud_casos cu form tabla)
      as [(nueva & -> & _ & _ & _ & _ & _ & _ & _ & _ & He & Ha)|[-> _]]; [|by left].
    right. by exists nueva. }
  destruct cu as [|u]; [by repeat split|].
  destruct (sin_rol_administrador u (Hcu u eq_refl)) as [Hs Hu].
  unfold gestionar, eliminar_solicitud, gestionar_usuarios, gestionar_solicitud_db.
  rewrite Hs, Hu. by repeat split.
Qed.

Lemma no_administrador_solo_lectura_witness :
  gestionar_solicitud_db (LoggedIn guardia_ejemplo) "GUARDIA" 1 "APROBADA" [solicitud_ejemplo]
  = (false, [solicitud_ejemplo])
  ∧ (gestionar (LoggedIn guardia_ejemplo) 1 "APROBADA" [solicitud_ejemplo]).2
    = [solicitud_ejemplo]
  ∧ (eliminar_solicitud (LoggedIn guardia_ejemplo) 1 [solicitud_ejemplo]).2
    = [solicitud_ejemplo]
  ∧ (gestionar_usuarios hash_ejemplo (LoggedIn guardia_ejemplo) POST form_ejemplo
       [admin_ejemplo; guardia_ejemplo]).2 = [admin_ejemplo; guardia_ejemplo]
  ∧ ((formulario_solicitud (LoggedIn guardia_ejemplo) POST form_ejemplo
        [solicitud_ejemplo]).2 = [solicitud_ejemplo]
     ∨ ∃ nueva,
         (formulario_solicitud (LoggedIn guardia_ejemplo) POST form_ejemplo
            [solicitud_ejemplo]).2 = [solicitud_ejemplo] ++ [nueva]
         ∧ SolicitudDB.estado nueva = "PENDIENTE"
         ∧ SolicitudDB.autorizador nueva = None).
Proof.
  apply (no_administrador_solo_lectura (LoggedIn guardia_ejemplo)).
  intros u Hu. injection Hu as <-. vm_compute. discriminate.
Defined.

(** ** Date ranges *)





(** ** Report downloads *)

Lemma generar_pdf_historial_resultado fmt lista tabla :
  generar_pdf_historial fmt lista tabla
  = Some (encabezado :: (fila_de fmt <$> default tabla lista),
          imap (λ i sol, BACKGROUND (5%nat, S i) (5%nat, S i)
                           (color_estado (SolicitudDB.estado sol)))
               (default tabla lista)).
Proof.
  unfold generar_pdf_historial. by rewrite estilo_estados_filas.
Qed.

(** X13: a report is produced exactly for actors holding "generar_pdf":
    without it neither download yields a document; with it both do, the
    daily one with one data row (and one coloured cell) per request in
    force on the day and the full one with one per stored request. *)
Theorem descargas_pdf :
  ∀ (cambiar_formato : string → option string) cu hoy_str tabla,
    (tiene_permiso cu "generar_pdf" = false →
     descargar_pdf_hoy cambiar_formato cu hoy_str tabla = None
     ∧ ∀ nombre doc, descargar_historial_pdf cambiar_formato cu tabla ≠ Documento nombre doc)
    ∧ (tiene_permiso cu "generar_pdf" = true →
       ∃ data_hoy estilo_hoy data estilo,
         descargar_pdf_hoy cambiar_formato cu hoy_str tabla = Some (data_hoy, estilo_hoy)
         ∧ length data_hoy = S (length (solicitudes_vigentes hoy_str tabla))
         ∧ length estilo_hoy = length (solicitudes_vigentes hoy_str tabla)
         ∧ descargar_historial_pdf cambiar_formato cu tabla
           = Documento "Historial_Completo.pdf" (data, estilo)
         ∧ length data = S (length tabla)
         ∧ length estilo = length tabla).
Proof.
  intros fmt cu hoy_str tabla. split; intros Hp.
  - unfold descargar_pdf_hoy, descargar_historial_pdf. rewrite Hp.
    rewrite andb_false_r. split; [done|]. intros nombre doc.
    destruct cu; discriminate.
  - destruct cu as [|u]; [discriminate|].
    unfold descargar_pdf_hoy, descargar_historial_pdf. rewrite Hp.
    cbn [is_authenticated andb negb]. rewrite !generar_pdf_historial_resultado.
    cbn [default]. eexists _, _, _, _. split; [reflexivity|].
    split; [cbn; by rewrite length_fmap|]. split; [cbn; by rewrite length_imap|].
    split; [reflexivity|]. cbn. by rewrite length_fmap, length_imap.
Qed.

Lemma descargas_pdf_witness :
  descargar_pdf_hoy formato_ejemplo (LoggedIn ventas_ejemplo) "2024-01-15" [solicitud_ejemplo]
  = None
  ∧ ∀ nombre doc,
      descargar_historial_pdf formato_ejemplo (LoggedIn ventas_ejemplo) [solicitud_ejemplo]
      ≠ Documento nombre doc.
Proof.
  apply (proj1 (descargas_pdf formato_ejemplo (LoggedIn ventas_ejemplo) "2024-01-15"
                  [solicitud_ejemplo])).
  vm_compute. reflexivity.
Defined.

(** * Further properties of the user table *)

Lemma find_app_bool {A} (f : A → bool) (l k : list A) :
  find f (l ++ k) = match find f l with Some x => Some x | None => find f k end.
Proof.
  induction l as [|x l IH]; cbn [app find]; [done|]. by destruct (f x).
Qed.


Lemma filter_by_username_None n (usuarios : list Usuario.t) :
  filter_by_username (Some n) usuarios = None ↔
  ∀ u, u ∈ usuarios → Usuario.username u ≠ n.
Proof.
  cbn [filter_by_username]. split.
  - intros H u Hin. apply list_elem_of_In in Hin.
    pose proof (find_none _ _ H u Hin) as Hn. cbn in Hn.
    by apply bool_decide_eq_false in Hn.
  - intros H. destruct (find _ usuarios) as [u|] eqn:E; [|done].
    apply find_some in E as [Hin Heq]. apply bool_decide_eq_true in Heq.
    apply list_elem_of_In in Hin. by destruct (H u Hin).
Qed.

Lemma filter_by_username_snoc n (usuarios : list Usuario.t) u :
  filter_by_username (Some n) usuarios = None → Usuario.username u = n →
  filter_by_username (Some n) (usuarios ++ [u]) = Some u.
Proof.
  cbn [filter_by_username]. intros Hno Hn.
  apply find_snoc_None; [done|]. by apply bool_decide_eq_true.
Qed.

Lemma filter_by_username_app_Some n (usuarios extra : list Usuario.t) u :
  filter_by_username (Some n) usuarios = Some u →
  filter_by_username (Some n) (usuarios ++ extra) = Some u.
Proof. cbn [filter_by_username]. intros H. by rewrite find_app_bool, H. Qed.

Lemma gestionar_usuarios_casos gph cu method form usuarios :
  (gestionar_usuarios gph cu method form usuarios).2 = usuarios
  ∨ ∃ n r p,
      form !! "username" = Some n ∧ form !! "rol" = Some r ∧ form !! "password" = Some p
      ∧ filter_by_username (Some n) usuarios = None
      ∧ tiene_permiso cu "gestionar_usuarios" = true ∧ method = POST
      ∧ gestionar_usuarios gph cu method form usuarios
        = (Render "gestionar_usuarios.html" (Some ("success", "Usuario creado.")),
           usuarios ++ [Usuario.mk (siguiente_id_usuario usuarios) n (Some (gph p)) r]).
Proof.
  unfold gestionar_usuarios. destruct cu as [|a]; [by left|].
  destruct (tiene_permiso (LoggedIn a) "gestionar_usuarios") eqn:Hp; cbn [negb]; [|by left].
  destruct method; [by left|].
  destruct (filter_by_username (form !! "username") usuarios) eqn:Hf; [by left|].
  destruct (form !! "username") as [n|]; [|by left].
  destruct (form !! "rol") as [r|]; [|by left].
  destruct (form !! "password") as [p|]; [|by left].
  right. exists n, r, p. by repeat split.
Qed.


(** X15: creation and login round trip: when a user holding
    "gestionar_usuarios" posts a name that no stored user has, with a
    role and a password, the user is stored with that name and role; and
    provided the hashing collaborator returns a non-empty hash that its
    check accepts for the same password, a login with that name and
    password then succeeds as the new user. *)
Theorem alta_y_login :
  ∀ (generate_password_hash : string → string)
    (check_password_hash : string → option string → option bool)
    cu form usuarios n r p form_login,
    tiene_permiso cu "gestionar_usuarios" = true →
    form !! "username" = Some n → form !! "rol" = Some r → form !! "password" = Some p →
    (∀ u, u ∈ usuarios → Usuario.username u ≠ n) →
    generate_password_hash p ≠ "" →
    check_password_hash (generate_password_hash p) (Some p) = Some true →
    form_login !! "username" = Some n → form_login !! "password" = Some p →
    ∃ u,
      gestionar_usuarios generate_password_hash cu POST form usuarios
      = (Render "gestionar_usuarios.html" (Some ("success", "Usuario creado.")),
         usuarios ++ [u])
      ∧ Usuario.username u = n ∧ Usuario.rol u = r
      ∧ login check_password_hash AnonymousUser POST form_login (usuarios ++ [u])
        = (Redirect "panel_admin" None None, LoggedIn u).
Proof.
  intros gph cph cu form usuarios n r p form_login Hp Hn Hr Hpw Hnuevo Hne Hchk Hln Hlp.
  apply filter_by_username_None in Hnuevo.
  exists (Usuario.mk (siguiente_id_usuario usuarios) n (Some (gph p)) r).
  split; [|split; [done|split; [done|]]].
  - unfold gestionar_usuarios. destruct cu as [|a]; [discriminate|].
    rewrite Hp, Hn, Hnuevo, Hr, Hpw. reflexivity.
  - unfold login. cbn [is_authenticated]. rewrite Hln.
    rewrite (filter_by_username_snoc n usuarios
               (Usuario.mk (siguiente_id_usuario usuarios) n (Some (gph p)) r)
               Hnuevo eq_refl).
    unfold check_password. cbn [Usuario.password_hash].
    rewrite bool_decide_eq_false_2 by done. by rewrite Hlp, Hchk.
Qed.

Lemma alta_y_login_witness :
  let form : gmap string string :=
    list_to_map [("username", "nueva"); ("password", "clave"); ("rol", "Guardia")] in
  ∃ u,
    gestionar_usuarios hash_ejemplo (LoggedIn admin_ejemplo) POST form
      [admin_ejemplo; guardia_ejemplo]
    = (Render "gestionar_usuarios.html" (Some ("success", "Usuario creado.")),
       [admin_ejemplo; guardia_ejemplo] ++ [u])
    ∧ Usuario.username u = "nueva" ∧ Usuario.rol u = "Guardia"
    ∧ login check_ejemplo AnonymousUser POST form ([admin_ejemplo; guardia_ejemplo] ++ [u])
      = (Redirect "panel_admin" None None, LoggedIn u).
Proof.
  apply (alta_y_login hash_ejemplo check_ejemplo (LoggedIn admin_ejemplo)
           (list_to_map [("username", "nueva"); ("password", "clave"); ("rol", "Guardia")])
           [admin_ejemplo; guardia_ejemplo] "nueva" "Guardia" "clave"
           (list_to_map [("username", "nueva"); ("password", "clave"); ("rol", "Guardia")])).
  - vm_compute. reflexivity.
  - vm_compute. reflexivity.
  - vm_compute. reflexivity.
  - vm_compute. reflexivity.
  - intros u Hu.
    repeat (apply elem_of_cons in Hu as [->|Hu]; [vm_compute; discriminate|]).
    by apply elem_of_nil in Hu.
  - vm_compute. discriminate.
  - vm_compute. reflexivity.
  - vm_compute. reflexivity.
  - vm_compute. reflexivity.
Defined.

Lemma nombres_snoc (usuarios : list Usuario.t) u :
  NoDup (Usuario.username <$> usuarios) →
  filter_by_username (Some (Usuario.username u)) usuarios = None →
  NoDup (Usuario.username <$> (usuarios ++ [u])).
Proof.
  intros Hnd Hno. rewrite fmap_app. apply NoDup_app. split; [done|]. split.
  - intros n Hn Hn'. apply list_elem_of_singleton in Hn'. subst n.
    apply list_elem_of_fmap in Hn as (v & Hv & Hin).
    by apply (proj1 (filter_by_username_None _ _) Hno v Hin).
  - apply NoDup_singleton.
Qed.

Lemma crear_usuarios_por_defecto_casos gph usuarios :
  ∃ extra,
    crear_usuarios_por_defecto gph usuarios = usuarios ++ extra
    ∧ (length extra ≤ 2)%nat
    ∧ is_Some (filter_by_username (Some "victor_admin") (usuarios ++ extra))
    ∧ is_Some (filter_by_username (Some "GUARDIA") (usuarios ++ extra))
    ∧ (NoDup (Usuario.username <$> usuarios) →
       NoDup (Usuario.username <$> (usuarios ++ extra))).
Proof.
  unfold crear_usuarios_por_defecto.
  set (adm := set_password gph (Usuario.mk (siguiente_id_usuario usuarios) "victor_admin"
                                  None "Administrador") "admin123").
  destruct (filter_by_username (Some "victor_admin") usuarios) as [a|] eqn:Ha.
  - set (gua := set_password gph (Usuario.mk (siguiente_id_usuario usuarios) "GUARDIA"
                                    None "Guardia") "guardia123").
    destruct (filter_by_username (Some "GUARDIA") usuarios) as [g|] eqn:Hg.
    + exists []. rewrite app_nil_r. rewrite Ha, Hg.
      repeat split; first [by eauto | cbn; lia].
    + exists [gua]. split; [done|]. split; [cbn; lia|]. split; [|split].
      * rewrite (filter_by_username_app_Some _ _ _ _ Ha). eauto.
      * rewrite (filter_by_username_snoc "GUARDIA" usuarios gua Hg eq_refl). eauto.
      * intros Hnd. by apply nombres_snoc.
  - set (us1 := usuarios ++ [adm]).
    assert (Ha1 : filter_by_username (Some "victor_admin") us1 = Some adm).
    { by apply filter_by_username_snoc. }
    set (gua := set_password gph (Usuario.mk (siguiente_id_usuario us1) "GUARDIA"
                                    None "Guardia") "guardia123").
    destruct (filter_by_username (Some "GUARDIA") us1) as [g|] eqn:Hg.
    + exists [adm]. fold us1. rewrite Ha1. split; [done|]. split; [cbn; lia|].
      split; [eauto|]. split; [eauto|]. intros Hnd. by apply nombres_snoc.
    + exists [adm; gua]. replace (usuarios ++ [adm; gua]) with (us1 ++ [gua])
        by (unfold us1; by rewrite <- app_assoc).
      split; [done|]. split; [cbn; lia|]. split; [|split].
      * rewrite (filter_by_username_app_Some _ _ _ _ Ha1). eauto.
      * rewrite (filter_by_username_snoc "GUARDIA" us1 gua Hg eq_refl). eauto.
      * intros Hnd. apply nombres_snoc; [|done]. by apply nombres_snoc.
Qed.

(** X16: user names stay unique without relying on the column
    constraint: if no two stored users share a name, the same holds
    after the start-up seeding and after any call of the user-management
    view, whoever calls it and whatever the form holds. *)
Theorem nombres_de_usuario_unicos :
  ∀ (generate_password_hash : string → string) cu method form usuarios,
    NoDup (Usuario.username <$> usuarios) →
    NoDup (Usuario.username <$> crear_usuarios_por_defecto generate_password_hash usuarios)
    ∧ NoDup (Usuario.username <$>
               (gestionar_usuarios generate_password_hash cu method form usuarios).2).
Proof.
  intros gph cu method form usuarios Hnd. split.
  - destruct (crear_usuarios_por_defecto_casos gph usuarios) as (extra & -> & _ & _ & _ & H).
    by apply H.
  - destruct (gestionar_usuarios_casos gph cu method form usuarios)
      as [->|(n & r & p & _ & _ & _ & Hno & _ & _ & ->)]; [done|].
    cbn [snd]. by apply nombres_snoc.
Qed.

Lemma nombres_de_usuario_unicos_witness :
  NoDup (Usuario.username <$> crear_usuarios_por_defecto hash_ejemplo [guardia_ejemplo])
  ∧ NoDup (Usuario.username <$>
             (gestionar_usuarios hash_ejemplo (LoggedIn admin_ejemplo) POST
                (list_to_map [("username", "GUARDIA"); ("password", "x"); ("rol", "Ventas")])
                [guardia_ejemplo]).2).
Proof.
  apply (nombres_de_usuario_unicos hash_ejemplo (LoggedIn admin_ejemplo) POST
           (list_to_map [("username", "GUARDIA"); ("password", "x"); ("rol", "Ventas")])
           [guardia_ejemplo]).
  vm_compute. apply NoDup_singleton.
Defined.

(** X17: the start-up seeding only appends, at most two rows, to the
    stored users; afterwards users named "victor_admin" and "GUARDIA"
    exist; and running it again on its own result changes nothing. *)
Theorem crear_usuarios_por_defecto_idempotente :
  ∀ (generate_password_hash : string → string) usuarios,
    usuarios `prefix_of` crear_usuarios_por_defecto generate_password_hash usuarios
    ∧ (length (crear_usuarios_por_defecto generate_password_hash usuarios)
       ≤ length usuarios + 2)%nat
    ∧ is_Some (filter_by_username (Some "victor_admin")
                 (crear_usuarios_por_defecto generate_password_hash usuarios))
    ∧ is_Some (filter_by_username (Some "GUARDIA")
                 (crear_usuarios_por_defecto generate_password_hash usuarios))
    ∧ crear_usuarios_por_defecto generate_password_hash
        (crear_usuarios_por_defecto generate_password_hash usuarios)
      = crear_usuarios_por_defecto generate_password_hash usuarios.
Proof.
  intros gph usuarios.
  destruct (crear_usuarios_por_defecto_casos gph usuarios)
    as (extra & -> & Hlen & [a Ha] & [g Hg] & _).
  split; [by apply prefix_app_r|]. split; [rewrite length_app; lia|].
  split; [eauto|]. split; [eauto|].
  unfold crear_usuarios_por_defecto. by rewrite Ha, Hg.
Qed.

(** On an empty table the seeding yields the two default accounts. *)
Example crear_usuarios_por_defecto_vacia :
  crear_usuarios_por_defecto hash_ejemplo [] = usuarios_iniciales hash_ejemplo.
Proof. reflexivity. Qed.

(** * The database URL *)

Lemma replace_1_prefix old new s :
  String.prefix old s = true →
  replace_1 old new s = new +:+ quitar (String.length old) s.
Proof. intros H. destruct s; cbn [replace_1]; by rewrite H. Qed.

(** X18: the URL handed to SQLAlchemy never starts with "postgres://":
    a value of DATABASE_URL with that scheme has it rewritten to
    "postgresql://" with the rest untouched, any other non-empty value is
    used as it is, and a missing or empty value gives the local SQLite
    URL. *)
Theorem database_url_corregida :
  ∀ env ruta_local,
    String.prefix "postgres://" (database_url env ruta_local) = false
    ∧ (∀ resto, env = Some ("postgres://" +:+ resto) →
                database_url env ruta_local = "postgresql://" +:+ resto)
    ∧ (∀ url, env = Some url → url ≠ "" → String.prefix "postgres://" url = false →
              database_url env ruta_local = url)
    ∧ (env = None ∨ env = Some "" →
       database_url env ruta_local = "sqlite:///" +:+ ruta_local).
Proof.
  intros env ruta_local. split; [|split; [|split]].
  - unfold database_url. destruct env as [url|]; [|reflexivity].
    case_bool_decide; [reflexivity|].
    destruct (String.prefix "postgres://" url) eqn:Hpre; [|done].
    rewrite (replace_1_prefix _ _ _ Hpre). reflexivity.
  - intros resto ->. unfold database_url.
    assert (Hpre : String.prefix "postgres://" ("postgres://" +:+ resto) = true)
      by (by destruct resto).
    rewrite bool_decide_eq_false_2 by discriminate.
    rewrite Hpre, (replace_1_prefix _ _ _ Hpre). reflexivity.
  - intros url -> Hne Hpre. unfold database_url.
    by rewrite bool_decide_eq_false_2, Hpre.
  - intros [->| ->]; reflexivity.
Qed.

Lemma database_url_corregida_witness :
  database_url (Some "postgres://u:p@host:5432/permisos") "/srv/app/solicitudes.db"
  = "postgresql://u:p@host:5432/permisos".
Proof.
  apply (proj1 (proj2 (database_url_corregida
                         (Some "postgres://u:p@host:5432/permisos")
                         "/srv/app/solicitudes.db")) "u:p@host:5432/permisos").
  reflexivity.
Defined.

(** The signing key is never empty. *)
Lemma secret_key_no_vacia env : secret_key env ≠ "".
Proof.
  unfold secret_key. destruct env as [k|]; [|discriminate].
  case_bool_decide; [discriminate|done].
Qed.
